(** * USD/COP forecast scraper: the data-normalisation pipeline

    A shallow embedding of [usd_cop_scraper.py]: the row loop of
    [scrape_with_selenium], [process_and_format_data] and [save_data],
    together with the Python built-ins they rely on ([str.strip],
    [str.lower], [str.split], [str.replace], [int], [float],
    [datetime], [timedelta] addition and [strftime]).

    Text is modelled by [string]: a sequence of characters with code
    points 0..255.  On that range the built-ins below follow CPython
    character by character. *)

From Stdlib Require Import String Ascii List ZArith NArith Lia Bool.
From Stdlib Require Import DecimalString.
Import ListNotations.

Local Open Scope string_scope.
Local Open Scope list_scope.
Local Open Scope Z_scope.

(** ** Characters *)

Module Text.

Definition code (c : ascii) : N := N_of_ascii c.

Definition between (lo hi n : N) : bool := ((lo <=? n) && (n <=? hi))%N.

(** [str.isspace] on one character: the set [str.strip()] removes. *)
Definition isspace (c : ascii) : bool :=
  let n := code c in
  between 9 13 n || between 28 32 n || (n =? 133)%N || (n =? 160)%N.

(** Whitespace that [int] and [float] tolerate around a numeral: the C
    locale's blanks, and the two non-ASCII blanks that CPython rewrites to
    a space before parsing.  The separators 28..31 are not among them. *)
Definition numspace (c : ascii) : bool :=
  let n := code c in
  between 9 13 n || (n =? 32)%N || (n =? 133)%N || (n =? 160)%N.

Definition lower_char (c : ascii) : ascii :=
  let n := code c in
  if between 65 90 n || (between 192 222 n && negb (n =? 215)%N)
  then ascii_of_N (n + 32)
  else c.

(** [str.lower] *)
Fixpoint lower (s : string) : string :=
  match s with
  | EmptyString => EmptyString
  | String c r => String (lower_char c) (lower r)
  end.

Fixpoint lstrip_by (p : ascii -> bool) (s : string) : string :=
  match s with
  | EmptyString => EmptyString
  | String c r => if p c then lstrip_by p r else s
  end.

Fixpoint rstrip_by (p : ascii -> bool) (s : string) : string :=
  match s with
  | EmptyString => EmptyString
  | String c r =>
      match rstrip_by p r with
      | EmptyString => if p c then EmptyString else String c EmptyString
      | r' => String c r'
      end
  end.

Definition strip_by (p : ascii -> bool) (s : string) : string :=
  rstrip_by p (lstrip_by p s).

(** [str.strip()] *)
Definition strip (s : string) : string := strip_by isspace s.

(** [s.split(sep)] for a one-character separator: always at least one
    part, one more part than there are separators. *)
Fixpoint split (sep : ascii) (s : string) : list string :=
  match s with
  | EmptyString => [EmptyString]
  | String c r =>
      if Ascii.eqb c sep then EmptyString :: split sep r
      else match split sep r with
           | h :: t => String c h :: t
           | [] => [String c EmptyString]
           end
  end.

(** [s.replace(c, '')] for a one-character pattern. *)
Fixpoint remove_char (x : ascii) (s : string) : string :=
  match s with
  | EmptyString => EmptyString
  | String c r =>
      if Ascii.eqb c x then remove_char x r else String c (remove_char x r)
  end.

Fixpoint all_chars (p : ascii -> bool) (s : string) : bool :=
  match s with
  | EmptyString => true
  | String c r => p c && all_chars p r
  end.

Fixpoint occurs (x : ascii) (s : string) : Prop :=
  match s with
  | EmptyString => False
  | String c r => c = x \/ occurs x r
  end.

End Text.

(** ** Exceptions *)

Inductive exn : Type :=
| ValueError
| OverflowError.

Inductive result (A : Type) : Type :=
| Ok (a : A)
| Raise (e : exn).
Arguments Ok {A} a.
Arguments Raise {A} e.

Definition rbind {A B} (r : result A) (k : A -> result B) : result B :=
  match r with
  | Ok a => k a
  | Raise e => Raise e
  end.

(** ** Numerals: [int] and [float] of a string *)

Module Numeral.
Import Text.

Definition digit_of (c : ascii) : option N :=
  let n := code c in
  if between 48 57 n then Some (n - 48)%N else None.

(** What remains of a digit part after its first digit: further digits,
    each optionally preceded by a single underscore.  The accumulator holds
    the value read so far and the number of digits. *)
Fixpoint digits_tail (s : string) (acc : N) (cnt : N) : N * N * string :=
  match s with
  | EmptyString => (acc, cnt, s)
  | String c r =>
      match digit_of c with
      | Some d => digits_tail r (10 * acc + d)%N (cnt + 1)%N
      | None =>
          if Ascii.eqb c "_" then
            match r with
            | String c' r' =>
                match digit_of c' with
                | Some d => digits_tail r' (10 * acc + d)%N (cnt + 1)%N
                | None => (acc, cnt, s)
                end
            | EmptyString => (acc, cnt, s)
            end
          else (acc, cnt, s)
      end
  end.

(** A possibly empty digit part, continuing the accumulator. *)
Definition digits_opt (s : string) (acc : N) : N * N * string :=
  match s with
  | EmptyString => (acc, 0%N, s)
  | String c r =>
      match digit_of c with
      | Some d => digits_tail r (10 * acc + d)%N 1%N
      | None => (acc, 0%N, s)
      end
  end.

(** An optional sign: [true] for a minus. *)
Definition sign (s : string) : bool * string :=
  match s with
  | String c r =>
      if Ascii.eqb c "-" then (true, r)
      else if Ascii.eqb c "+" then (false, r)
      else (false, s)
  | EmptyString => (false, s)
  end.

(** [sys.int_info.default_max_str_digits] *)
Definition max_str_digits : N := 4300.

(** [int(s)] *)
Definition int_of_string (s : string) : result Z :=
  let (neg, body) := sign (strip_by numspace s) in
  match digits_opt body 0 with
  | (v, cnt, EmptyString) =>
      if (cnt =? 0)%N then Raise ValueError
      else if (max_str_digits <? cnt)%N then Raise ValueError
      else Ok (if neg then - Z.of_N v else Z.of_N v)
  | _ => Raise ValueError
  end.

(** The value a decimal literal denotes, before it is rounded to a
    binary64: [mant * 10 ^ exp], negated when [neg]. *)
Inductive pyfloat : Type :=
| Fnan
| Finf (neg : bool)
| Fdec (neg : bool) (mant : N) (exp : Z).

Definition exponent (s : string) (mant : N) (e0 : Z) : option (N * Z) :=
  match s with
  | EmptyString => Some (mant, e0)
  | String c r =>
      if Ascii.eqb c "e" || Ascii.eqb c "E" then
        let (eneg, r') := sign r in
        match digits_opt r' 0 with
        | (v, cnt, EmptyString) =>
            if (cnt =? 0)%N then None
            else Some (mant, if eneg then e0 - Z.of_N v else e0 + Z.of_N v)
        | _ => None
        end
      else None
  end.

(** [number [exponent]] with
    [number ::= [digitpart] "." digitpart | digitpart ["."]] *)
Definition floatnumber (s : string) : option (N * Z) :=
  match digits_opt s 0 with
  | (m1, c1, String c r) =>
      if Ascii.eqb c "." then
        match digits_opt r m1 with
        | (m2, c2, rest) =>
            if (c1 + c2 =? 0)%N then None
            else exponent rest m2 (- Z.of_N c2)
        end
      else if (c1 =? 0)%N then None
      else exponent (String c r) m1 0
  | (m1, c1, EmptyString) =>
      if (c1 =? 0)%N then None else Some (m1, 0)
  end.

(** [float(s)] *)
Definition float_of_string (s : string) : result pyfloat :=
  let (neg, body) := sign (strip_by numspace s) in
  let l := lower body in
  if String.eqb l "nan" then Ok Fnan
  else if String.eqb l "inf" || String.eqb l "infinity" then Ok (Finf neg)
  else match floatnumber body with
       | Some (m, e) => Ok (Fdec neg m e)
       | None => Raise ValueError
       end.

(** [x >= 0] on the denoted value.  Rounding to binary64 is monotone and
    maps zero to zero, so it never turns a value for which this holds into
    a negative float; [nan >= 0] is false. *)
Definition nonneg (x : pyfloat) : bool :=
  match x with
  | Fnan => false
  | Finf neg => negb neg
  | Fdec neg m _ => negb neg || (m =? 0)%N
  end.

End Numeral.

(** ** Calendar dates: [datetime], [timedelta] addition, [strftime] *)

Module Calendar.

(** A [datetime] at midnight; the script never sets a time of day. *)
Record datetime : Type := mk_datetime { year : Z; month : Z; day : Z }.

Definition MINYEAR : Z := 1.
Definition MAXYEAR : Z := 9999.

Definition is_leap (y : Z) : bool :=
  (y mod 4 =? 0) && (negb (y mod 100 =? 0) || (y mod 400 =? 0)).

Definition days_in_month (y m : Z) : Z :=
  if m =? 2 then (if is_leap y then 29 else 28)
  else if (m =? 4) || (m =? 6) || (m =? 9) || (m =? 11) then 30
  else 31.

(** The constructor converts its arguments to C ints before it checks
    their ranges. *)
Definition c_int (n : Z) : bool := (- 2 ^ 31 <=? n) && (n <? 2 ^ 31).

(** [datetime(y, m, d)] *)
Definition new (y m d : Z) : result datetime :=
  if negb (c_int y && c_int m && c_int d) then Raise OverflowError
  else if (MINYEAR <=? y) && (y <=? MAXYEAR)
          && (1 <=? m) && (m <=? 12)
          && (1 <=? d) && (d <=? days_in_month y m)
       then Ok (mk_datetime y m d)
       else Raise ValueError.

Definition next_day (t : datetime) : result datetime :=
  if day t <? days_in_month (year t) (month t)
  then Ok (mk_datetime (year t) (month t) (day t + 1))
  else if month t <? 12 then Ok (mk_datetime (year t) (month t + 1) 1)
  else if year t <? MAXYEAR then Ok (mk_datetime (year t + 1) 1 1)
  else Raise OverflowError.

(** [t + timedelta(days=n)]: out of range past 31 December 9999. *)
Fixpoint add_days (t : datetime) (n : nat) : result datetime :=
  match n with
  | O => Ok t
  | S k => rbind (next_day t) (fun t' => add_days t' k)
  end.

(** The proleptic Gregorian ordinal, 1 January of year 1 being day 1. *)
Definition days_before_year (y : Z) : Z :=
  let p := y - 1 in p * 365 + p / 4 - p / 100 + p / 400.

Fixpoint days_before_month_aux (y : Z) (m : nat) : Z :=
  match m with
  | O => 0
  | S k => days_before_month_aux y k + days_in_month y (Z.of_nat m)
  end.

Definition days_before_month (y m : Z) : Z :=
  days_before_month_aux y (Z.to_nat (m - 1)).

Definition toordinal (t : datetime) : Z :=
  days_before_year (year t) + days_before_month (year t) (month t) + day t.

Definition valid_date (t : datetime) : Prop :=
  1 <= month t <= 12 /\ 1 <= day t <= days_in_month (year t) (month t).

Definition decimal (n : Z) : string :=
  NilZero.string_of_uint (N.to_uint (Z.to_N n)).

Definition pad2 (n : Z) : string :=
  if n <? 10 then String "0" (decimal n) else decimal n.

(** [t.strftime("%d/%m/%Y")]; the year is printed as the C library prints
    it, which is four digits from year 1000 on. *)
Definition strftime (t : datetime) : string :=
  (pad2 (day t) ++ "/" ++ pad2 (month t) ++ "/" ++ decimal (year t))%string.

(** Reading a formatted field back: no separator inside it, and [int]
    returns the number it was printed from. *)
Definition reads_back (field : string) (n : Z) : bool :=
  Text.all_chars (fun c => negb (Ascii.eqb c "/")) field
  && match Numeral.int_of_string field with
     | Ok v => v =? n
     | Raise _ => false
     end.

(** The integers from [lo] to [hi]. *)
Definition range (lo hi : Z) : list Z :=
  map (fun k => lo + Z.of_nat k) (seq 0 (Z.to_nat (hi - lo + 1))).

End Calendar.

(** ** Rows *)

(** A scraped row: the dict with keys Date, Weekday, Min, Max, Rate, all
    text. *)
Module Raw.
Record t : Type :=
  mk { Date : string; Weekday : string; Min : string; Max : string;
       Rate : string }.
End Raw.

(** A formatted row: same keys, the date as DD/MM/YYYY text and the three
    quantities as floats. *)
Module Out.
Record t : Type :=
  mk { Date : string; Weekday : string; Min : Numeral.pyfloat;
       Max : Numeral.pyfloat; Rate : Numeral.pyfloat }.
End Out.

(** What the script prints, as far as the row loops are concerned. *)
Inductive message : Type :=
| MsgRow (n : nat) (row : Raw.t)
| MsgExtracted (n : nat)
| MsgProcessing
| MsgWeekendAdded (formatted_date : string)
| MsgRowError (i : nat) (row : Raw.t) (e : exn)
| MsgProcessed (n m : nat).

(** ** The row loop of [scrape_with_selenium] *)

Module Scrape.
Import Text.

(** The loop's variables: the list [data] and standard output. *)
Record state : Type := mk_state { data : list Raw.t; console : list message }.

(** [any(row_data.values())]: some value is a non-empty string. *)
Definition any_value (r : Raw.t) : bool :=
  negb (String.eqb (Raw.Date r) "") || negb (String.eqb (Raw.Weekday r) "")
  || negb (String.eqb (Raw.Min r) "") || negb (String.eqb (Raw.Max r) "")
  || negb (String.eqb (Raw.Rate r) "").

(** One [tr] element, given by the text of its [td] cells. *)
Definition step (st : state) (i : nat) (cells : list string) : state :=
  match cells with
  | c0 :: c1 :: c2 :: c3 :: c4 :: _ =>
      let row_data :=
        Raw.mk (strip c0) (strip c1) (strip c2) (strip c3) (strip c4) in
      if any_value row_data then
        let data' := data st ++ [row_data] in
        mk_state data'
          (if (i <? 5)%nat
           then console st ++ [MsgRow (length data') row_data]
           else console st)
      else st
  | _ => st
  end.

Fixpoint loop (st : state) (i : nat) (rows : list (list string)) : state :=
  match rows with
  | [] => st
  | cells :: rest => loop (step st i cells) (S i) rest
  end.

(** Lines 71 to 93: from the rows of the target table to [data]. *)
Definition extract_rows (rows : list (list string)) : state :=
  let st := loop (mk_state [] []) 0 rows in
  mk_state (data st) (console st ++ [MsgExtracted (length (data st))]).

End Scrape.

(** ** [process_and_format_data] *)

Module Process.
Import Text Numeral Calendar.

(** The function's variables: the list [formatted_data] and standard
    output. *)
Record state : Type :=
  mk_state { formatted_data : list Out.t; console : list message }.

(** Statements of the [try] block: they update the state and either fall
    through or raise. *)
Definition M (A : Type) : Type := state -> state * result A.

Definition ret {A} (a : A) : M A := fun st => (st, Ok a).

Definition bind {A B} (c : M A) (k : A -> M B) : M B :=
  fun st =>
    match c st with
    | (st', Ok a) => k a st'
    | (st', Raise e) => (st', Raise e)
    end.

Definition eval {A} (r : result A) : M A := fun st => (st, r).

Definition append (row : Out.t) : M unit :=
  fun st => (mk_state (formatted_data st ++ [row]) (console st), Ok tt).

Definition print (m : message) : M unit :=
  fun st => (mk_state (formatted_data st) (console st ++ [m]), Ok tt).

Notation "x <- c ;; k" := (bind c (fun x => k))
  (at level 61, c at next level, right associativity).
Notation "c ;;; k" := (bind c (fun _ => k))
  (at level 61, right associativity).

Definition is_friday (weekday : string) : bool :=
  String.eqb (lower weekday) "friday".

(** The body of the [try] block, lines 121 to 170. *)
Definition try_body (current_year : Z) (row : Raw.t) : M unit :=
  let date_parts := split "/" (Raw.Date row) in
  if (length date_parts =? 2)%nat then
    day <- eval (int_of_string (nth 0 date_parts "")) ;;
    month <- eval (int_of_string (nth 1 date_parts "")) ;;
    full_date <- eval (Calendar.new current_year month day) ;;
    let formatted_date := strftime full_date in
    min_val <- eval (float_of_string (remove_char "," (Raw.Min row))) ;;
    max_val <- eval (float_of_string (remove_char "," (Raw.Max row))) ;;
    rate_val <- eval (float_of_string (remove_char "," (Raw.Rate row))) ;;
    append (Out.mk formatted_date (Raw.Weekday row) min_val max_val rate_val) ;;;
    if is_friday (Raw.Weekday row) then
      saturday <- eval (add_days full_date 1) ;;
      append (Out.mk (strftime saturday) "Saturday" min_val max_val rate_val) ;;;
      sunday <- eval (add_days full_date 2) ;;
      append (Out.mk (strftime sunday) "Sunday" min_val max_val rate_val) ;;;
      print (MsgWeekendAdded formatted_date)
    else ret tt
  else ret tt.

(** One iteration: the [try] block and its [except Exception] handler,
    which reports the row and goes on. *)
Definition step (current_year : Z) (st : state) (i : nat) (row : Raw.t)
  : state :=
  match try_body current_year row st with
  | (st', Ok _) => st'
  | (st', Raise e) =>
      mk_state (formatted_data st') (console st' ++ [MsgRowError i row e])
  end.

Fixpoint loop (current_year : Z) (st : state) (i : nat) (rows : list Raw.t)
  : state :=
  match rows with
  | [] => st
  | row :: rest => loop current_year (step current_year st i row) (S i) rest
  end.

(** The state in which the function returns; its return value is the
    field [formatted_data].  [current_year] is [datetime.now().year]. *)
Definition process_and_format_data (current_year : Z) (raw_data : list Raw.t)
  : state :=
  let st := loop current_year (mk_state [] [MsgProcessing]) 0 raw_data in
  mk_state (formatted_data st)
    (console st
       ++ [MsgProcessed (length raw_data) (length (formatted_data st))]).

(** The rows one source row puts on the list. *)
Definition emitted (current_year : Z) (row : Raw.t) : list Out.t :=
  formatted_data (fst (try_body current_year row (mk_state [] []))).

(** Lines 122 to 143 on their own: the date and the main row, when every
    conversion succeeds. *)
Definition parse_row (current_year : Z) (row : Raw.t)
  : option (datetime * Out.t) :=
  match split "/" (Raw.Date row) with
  | [p0; p1] =>
      match int_of_string p0, int_of_string p1 with
      | Ok day, Ok month =>
          match Calendar.new current_year month day,
                float_of_string (remove_char "," (Raw.Min row)),
                float_of_string (remove_char "," (Raw.Max row)),
                float_of_string (remove_char "," (Raw.Rate row)) with
          | Ok full_date, Ok min_val, Ok max_val, Ok rate_val =>
              Some (full_date,
                    Out.mk (strftime full_date) (Raw.Weekday row)
                      min_val max_val rate_val)
          | _, _, _, _ => None
          end
      | _, _ => None
      end
  | _ => None
  end.

(** Lines 146 to 168 on their own: the rows added after the main row. *)
Definition weekend (full_date : datetime) (main : Out.t) : list Out.t :=
  if is_friday (Out.Weekday main) then
    match add_days full_date 1 with
    | Ok saturday =>
        Out.mk (strftime saturday) "Saturday"
          (Out.Min main) (Out.Max main) (Out.Rate main)
        :: match add_days full_date 2 with
           | Ok sunday =>
               [Out.mk (strftime sunday) "Sunday"
                  (Out.Min main) (Out.Max main) (Out.Rate main)]
           | Raise _ => []
           end
    | Raise _ => []
    end
  else [].

Definition raises {A} (r : result A) : Prop :=
  match r with Raise _ => True | Ok _ => False end.

(** The ways a row can fail before anything is appended. *)
Definition rejected (current_year : Z) (row : Raw.t) : Prop :=
  match split "/" (Raw.Date row) with
  | [p0; p1] =>
      raises (int_of_string p0) \/ raises (int_of_string p1)
      \/ (exists day month,
             int_of_string p0 = Ok day /\ int_of_string p1 = Ok month
             /\ raises (Calendar.new current_year month day))
      \/ raises (float_of_string (remove_char "," (Raw.Min row)))
      \/ raises (float_of_string (remove_char "," (Raw.Max row)))
      \/ raises (float_of_string (remove_char "," (Raw.Rate row)))
  | _ => True
  end.

(** The source rows that are parsed, in source order, each with its
    date. *)
Definition parsed (current_year : Z) (raw_data : list Raw.t)
  : list (datetime * Out.t) :=
  flat_map (fun row => match parse_row current_year row with
                       | Some p => [p]
                       | None => []
                       end) raw_data.

Definition fridays (records : list (datetime * Out.t)) : nat :=
  length (filter (fun p => is_friday (Out.Weekday (snd p))) records).

End Process.

(** ** [save_data] *)

Module Exporter.

(** What the function asks of the file system and of pandas; each answer
    is given by the environment. *)
Record env : Type :=
  mk_env {
    path_exists : string -> bool;  (* os.path.exists *)
    makedirs_ok : string -> bool;  (* os.makedirs returns *)
    excel_ok : string -> bool;     (* the ExcelWriter block completes *)
    styles_ok : bool;              (* openpyxl.styles can be imported *)
    csv_ok : string -> bool;       (* to_csv returns *)
    json_ok : string -> bool;      (* open and json.dump return *)
    timestamp : string             (* now, as %Y%m%d_%H%M%S *)
  }.

Inductive target : Type :=
| Directory
| Spreadsheet (styled : bool)
| Delimited
| Snapshot.

(** One call that touches the file system, and whether it returned. *)
Record attempt : Type :=
  mk_attempt { what : target; path : string; completed : bool }.

Definition starts_with_slash (s : string) : bool :=
  match s with
  | String c _ => Ascii.eqb c "/"
  | EmptyString => false
  end.

Fixpoint ends_with_slash (s : string) : bool :=
  match s with
  | EmptyString => false
  | String c EmptyString => Ascii.eqb c "/"
  | String _ r => ends_with_slash r
  end.

(** [os.path.join(a, b)] *)
Definition join (a b : string) : string :=
  if starts_with_slash b then b
  else if String.eqb a "" || ends_with_slash a then (a ++ b)%string
  else (a ++ "/" ++ b)%string.

(** Statements of a [try] block that log their attempts; [None] once one
    of them has raised. *)
Definition M (A : Type) : Type := list attempt -> list attempt * option A.

Definition bind {A B} (c : M A) (k : A -> M B) : M B :=
  fun log =>
    match c log with
    | (log', Some a) => k a log'
    | (log', None) => (log', None)
    end.

Definition call (t : target) (p : string) (ok : bool) : M unit :=
  fun log => (log ++ [mk_attempt t p ok], if ok then Some tt else None).

Notation "c ;;; k" := (bind c (fun _ => k))
  (at level 61, right associativity).

Definition fallback_filename : string := "forecast_usd_fallback.csv".

(** Lines 205 to 269: the three writes, in one [try] block. *)
Definition try_writes (E : env) (excel_filename csv_filename json_filename
                                 : string) : M unit :=
  call (Spreadsheet (styles_ok E)) excel_filename (excel_ok E excel_filename) ;;;
  call Delimited csv_filename (csv_ok E csv_filename) ;;;
  call Snapshot json_filename (json_ok E json_filename).

(** The attempts made, in order, and the value returned.  Console output
    is left out. *)
Definition save_data (E : env) (data : list Out.t) (output_path : string)
  : list attempt * option string :=
  match data with
  | [] => ([], None)
  | _ :: _ =>
      let '(log0, output_path) :=
        if path_exists E output_path then ([], output_path)
        else if makedirs_ok E output_path
             then ([mk_attempt Directory output_path true], output_path)
             else ([mk_attempt Directory output_path false], ".") in
      let excel_filename := join output_path "forecast_usd.xlsx" in
      let csv_filename := join output_path "forecast_usd.csv" in
      let json_filename :=
        join output_path ("forecast_usd_" ++ timestamp E ++ ".json")%string in
      let log :=
        match try_writes E excel_filename csv_filename json_filename log0 with
        | (log1, Some _) => log1
        | (log1, None) =>
            fst (call Delimited fallback_filename
                   (csv_ok E fallback_filename) log1)
        end in
      (log, Some excel_filename)
  end.

Definition attempted (t : target) (p : string) (log : list attempt) : Prop :=
  exists ok, In (mk_attempt t p ok) log.

End Exporter.

(** ** [scrape_with_selenium] and the script's entry point *)

Module Selenium.

(** What a call into the browser gives: a value, or an exception. *)
Inductive reading (A : Type) : Type :=
| Read (a : A)
| Fails.
Arguments Read {A} a.
Arguments Fails {A}.

(** A [table] element as the function sees it: its class attribute
    ([None] when absent), its text, and its [tr] rows, each row being the
    texts of its [td] cells. *)
Record table : Type :=
  mk_table {
    class_attr : reading (option string);
    text : reading string;
    rows : reading (list (reading (list string)))
  }.

(** The browser session: whether Chrome starts, the page loads and a table
    shows up within the wait, and the tables then found. *)
Record browser : Type :=
  mk_browser {
    chrome : bool;
    get : bool;
    wait : bool;
    find_tables : reading (list table)
  }.

Inductive notice : Type :=
| Starting
| Navigating
| Waiting
| Looking
| FoundTable
| NoTable
| Extracting
| Inner (m : message)
| ScrapeError
| BrowserClosed.

(** [sub in s] *)
Fixpoint contains (sub s : string) : bool :=
  String.prefix sub s
  || match s with
     | EmptyString => false
     | String _ r => contains sub r
     end.

(** The test of line 58, or [Fails] when reading the table raises. *)
Definition qualifies (t : table) : reading bool :=
  match class_attr t with
  | Fails => Fails
  | Read table_class =>
      match text t with
      | Fails => Fails
      | Read table_text =>
          Read (contains "tbh" (match table_class with
                                | Some c => c
                                | None => ""
                                end)
                || (contains "Date" table_text
                    && contains "Weekday" table_text))
      end
  end.

(** Lines 50 to 63: the first table that passes the test; a table that
    cannot be read is passed over. *)
Fixpoint find_target (tables : list table) : option table :=
  match tables with
  | [] => None
  | t :: rest =>
      match qualifies t with
      | Read true => Some t
      | _ => find_target rest
      end
  end.

(** Statements of the outer [try] block: they print, and fall through or
    raise ([None]). *)
Definition M (A : Type) : Type := list notice -> list notice * option A.

Definition ret {A} (a : A) : M A := fun out => (out, Some a).

Definition bind {A B} (c : M A) (k : A -> M B) : M B :=
  fun out =>
    match c out with
    | (out', Some a) => k a out'
    | (out', None) => (out', None)
    end.

Definition say (n : notice) : M unit := fun out => (out ++ [n], Some tt).

Definition say_all (ms : list message) : M unit :=
  fun out => (out ++ map Inner ms, Some tt).

Definition call (ok : bool) : M unit :=
  fun out => (out, if ok then Some tt else None).

Definition attempt {A} (r : reading A) : M A :=
  fun out => (out, match r with Read a => Some a | Fails => None end).

Notation "x <- c ;; k" := (bind c (fun x => k))
  (at level 61, c at next level, right associativity).
Notation "c ;;; k" := (bind c (fun _ => k))
  (at level 61, right associativity).

(** Lines 75 to 91 with a browser that may fail: the loop of [Scrape],
    stopped by the first row that cannot be read. *)
Fixpoint read_rows (data : list Raw.t) (i : nat)
         (trs : list (reading (list string))) : M (list Raw.t) :=
  match trs with
  | [] => ret data
  | tr :: rest =>
      cells <- attempt tr ;;
      let st := Scrape.step (Scrape.mk_state data []) i cells in
      say_all (Scrape.console st) ;;;
      read_rows (Scrape.data st) (S i) rest
  end.

(** The body of the [try] block, lines 34 to 97. *)
Definition try_body (current_year : Z) (b : browser)
  : M (option (list Out.t)) :=
  say Starting ;;;
  call (chrome b) ;;;
  say Navigating ;;;
  call (get b) ;;;
  say Waiting ;;;
  call (wait b) ;;;
  say Looking ;;;
  tables <- attempt (find_tables b) ;;
  match find_target tables with
  | None => say NoTable ;;; ret None
  | Some target_table =>
      say FoundTable ;;;
      say Extracting ;;;
      trs <- attempt (rows target_table) ;;
      data <- read_rows [] 0 trs ;;
      say_all [MsgExtracted (length data)] ;;;
      let st := Process.process_and_format_data current_year data in
      say_all (Process.console st) ;;;
      ret (Some (Process.formatted_data st))
  end.

(** What a call leaves behind: the value returned, what was printed, and
    whether [driver.quit()] ran. *)
Record outcome : Type :=
  mk_outcome {
    returned : option (list Out.t);
    printed : list notice;
    quit : bool
  }.

(** The [try] block with its [except Exception] handler, which returns
    [None], and its [finally] clause, which closes the browser if it was
    started. *)
Definition scrape_with_selenium (current_year : Z) (b : browser) : outcome :=
  let '(out, value) :=
    match try_body current_year b [] with
    | (out, Some v) => (out, v)
    | (out, None) => (out ++ [ScrapeError], None)
    end in
  if chrome b then mk_outcome value (out ++ [BrowserClosed]) true
  else mk_outcome value out false.

(** Lines 306 to 323: the exit status, and the file-system calls made.
    [if data] is false for [None] and for the empty list. *)
Definition main (current_year : Z) (b : browser) (E : Exporter.env)
  : Z * list Exporter.attempt :=
  match returned (scrape_with_selenium current_year b) with
  | Some (r :: data) => (0, fst (Exporter.save_data E (r :: data) "."))
  | Some [] => (1, [])
  | None => (1, [])
  end.

(** A page whose every call succeeds, holding the given tables. *)
Definition loaded (tables : list table) : browser :=
  mk_browser true true true (Read tables).

(** A table that reads without failure. *)
Definition plain_table (class_name : option string) (txt : string)
           (trs : list (list string)) : table :=
  mk_table (Read class_name) (Read txt) (Read (map Read trs)).

End Selenium.

(** ** Sample inputs *)

Module Sample.

(** The row of the end-to-end example. *)
Definition friday_row : Raw.t :=
  Raw.mk "25/07" "Friday" "4,050" "4,100" "4,075".

Definition monday_row : Raw.t :=
  Raw.mk "28/07" "Monday" "4,060.5" "4,110" "4,085".

(** A row the source page itself labels as a weekend day. *)
Definition saturday_row : Raw.t :=
  Raw.mk "26/07" "Saturday" "4,000" "4,020" "4,010".

Definition negative_row : Raw.t :=
  Raw.mk "29/07" "Tuesday" "-5" "4,100" "4,075".

Definition june_31_row : Raw.t :=
  Raw.mk "31/06" "Monday" "4,050" "4,100" "4,075".

Definition not_numeric_row : Raw.t :=
  Raw.mk "30/07" "Wednesday" "n/a" "4,100" "4,075".

Definition december_31_row : Raw.t :=
  Raw.mk "31/12" "Friday" "1" "2" "3".

(** Every call succeeds except the spreadsheet write. *)
Definition excel_fails : Exporter.env :=
  Exporter.mk_env (fun _ => true) (fun _ => true) (fun _ => false) true
    (fun _ => true) (fun _ => true) "20250725_060000".

Definition all_succeed : Exporter.env :=
  Exporter.mk_env (fun _ => true) (fun _ => true) (fun _ => true) true
    (fun _ => true) (fun _ => true) "20250725_060000".

Definition one_record : list Out.t :=
  [Out.mk "25/07/2025" "Friday" (Numeral.Fdec false 4050 0)
     (Numeral.Fdec false 4100 0) (Numeral.Fdec false 4075 0)].

End Sample.

(** * Properties *)

(** ** Generic facts about lists and results *)

Lemma nth_error_flat_map_block {A B} (f : A -> list B) (l : list A) :
  forall (i : nat) (x : B),
    nth_error (flat_map f l) i = Some x ->
    exists pre r post k,
      l = pre ++ r :: post
      /\ i = (length (flat_map f pre) + k)%nat
      /\ nth_error (f r) k = Some x.
Proof.
  induction l as [|a l IH]; intros i x H.
  - destruct i; discriminate.
  - simpl in H.
    destruct (Nat.ltb_spec i (length (f a))) as [Hlt|Hge].
    + rewrite nth_error_app1 in H by exact Hlt.
      exists [], a, l, i. simpl. auto.
    + rewrite nth_error_app2 in H by exact Hge.
      destruct (IH _ _ H) as (pre & r & post & k & -> & Hi & Hk).
      exists (a :: pre), r, post, k. simpl.
      rewrite length_app. repeat split; auto. lia.
Qed.

Lemma flat_map_split {A B} (f : A -> list B) (pre : list A) (r : A)
      (post : list A) :
  flat_map f (pre ++ r :: post) = flat_map f pre ++ f r ++ flat_map f post.
Proof. rewrite flat_map_app. reflexivity. Qed.

(** ** The processing loop as a map over the source rows *)

Import Text Numeral Calendar Process.

Ltac unfold_try :=
  unfold try_body, Process.bind, eval, append, print, ret.

Ltac split_results :=
  repeat match goal with
         | |- context [match ?r with Ok _ => _ | Raise _ => _ end] =>
             destruct r; simpl
         | |- context [if ?b then _ else _] => destruct b; simpl
         end.

Lemma try_body_data (y : Z) (row : Raw.t) (st : state) :
  formatted_data (fst (try_body y row st))
  = formatted_data st ++ emitted y row.
Proof.
  unfold emitted. unfold_try.
  destruct (length (split "/" (Raw.Date row)) =? 2)%nat; simpl;
    [|now rewrite app_nil_r].
  split_results; rewrite ?app_nil_r, <- ?app_assoc; reflexivity.
Qed.

Lemma step_data (y : Z) (st : state) (i : nat) (row : Raw.t) :
  formatted_data (step y st i row) = formatted_data st ++ emitted y row.
Proof.
  rewrite <- try_body_data. unfold step.
  destruct (try_body y row st) as [st' [u|e]]; reflexivity.
Qed.

Lemma loop_data (y : Z) (rows : list Raw.t) :
  forall (st : state) (i : nat),
    formatted_data (loop y st i rows)
    = formatted_data st ++ flat_map (emitted y) rows.
Proof.
  induction rows as [|row rows IH]; intros st i; simpl.
  - now rewrite app_nil_r.
  - rewrite IH, step_data, app_assoc. reflexivity.
Qed.

Lemma process_data (y : Z) (rows : list Raw.t) :
  formatted_data (process_and_format_data y rows) = flat_map (emitted y) rows.
Proof. unfold process_and_format_data. simpl. now rewrite loop_data. Qed.

Lemma emitted_parse (y : Z) (row : Raw.t) :
  emitted y row
  = match parse_row y row with
    | Some (full_date, main) => main :: weekend full_date main
    | None => []
    end.
Proof.
  unfold emitted, parse_row, weekend. unfold_try.
  destruct (split "/" (Raw.Date row)) as [|p0 [|p1 [|p2 ps]]]; simpl;
    try reflexivity.
  destruct (int_of_string p0) as [d|]; simpl; [|reflexivity].
  destruct (int_of_string p1) as [m|]; simpl; [|reflexivity].
  destruct (Calendar.new y m d) as [fd|]; simpl; [|reflexivity].
  destruct (float_of_string (remove_char "," (Raw.Min row))); simpl;
    [|reflexivity].
  destruct (float_of_string (remove_char "," (Raw.Max row))); simpl;
    [|reflexivity].
  destruct (float_of_string (remove_char "," (Raw.Rate row))); simpl;
    [|reflexivity].
  destruct (is_friday (Raw.Weekday row)); simpl; [|reflexivity].
  destruct (next_day fd) as [sat|]; simpl; [|reflexivity].
  destruct (next_day sat) as [sun|]; simpl; reflexivity.
Qed.

Lemma rejected_parse (y : Z) (row : Raw.t) :
  rejected y row <-> parse_row y row = None.
Proof.
  unfold rejected, parse_row.
  destruct (split "/" (Raw.Date row)) as [|p0 [|p1 [|p2 ps]]];
    try tauto.
  destruct (int_of_string p0) as [d|]; simpl;
    [|split; [reflexivity|tauto]].
  destruct (int_of_string p1) as [m|]; simpl;
    [|split; [reflexivity|tauto]].
  destruct (Calendar.new y m d) as [fd|] eqn:Hnew; simpl.
  - destruct (float_of_string (remove_char "," (Raw.Min row))); simpl;
      [|split; [reflexivity|tauto]].
    destruct (float_of_string (remove_char "," (Raw.Max row))); simpl;
      [|split; [reflexivity|tauto]].
    destruct (float_of_string (remove_char "," (Raw.Rate row))); simpl;
      [|split; [reflexivity|tauto]].
    split; [|discriminate].
    intros [[]|[[]|[(d' & m' & Hd & Hm & Hr)|[[]|[[]|[]]]]]].
    injection Hd as <-. injection Hm as <-. rewrite Hnew in Hr. destruct Hr.
  - split; [intros _|intros _].
    + destruct (float_of_string (remove_char "," (Raw.Min row)));
        destruct (float_of_string (remove_char "," (Raw.Max row)));
        reflexivity.
    + right; right; left. exists d, m. rewrite Hnew. simpl. auto.
Qed.

Lemma next_day_shape (t s : datetime) :
  next_day t = Ok s ->
  (Calendar.year s = Calendar.year t
   \/ (Calendar.year s = Calendar.year t + 1 /\ Calendar.month s = 1
       /\ Calendar.day s = 1)).
Proof.
  unfold next_day.
  destruct (day t <? _); [intros [= <-]; left; reflexivity|].
  destruct (month t <? 12); [intros [= <-]; left; reflexivity|].
  destruct (Calendar.year t <? MAXYEAR); [|discriminate].
  intros [= <-]. right. simpl. auto.
Qed.

Lemma days_in_month_lower (y m : Z) : 28 <= days_in_month y m.
Proof.
  unfold days_in_month.
  destruct (m =? 2); [destruct (is_leap y); lia|].
  destruct (_ || _); lia.
Qed.

Lemma next_day_ok (t : datetime) :
  Calendar.year t < MAXYEAR -> exists s, next_day t = Ok s.
Proof.
  intros Hy. unfold next_day.
  destruct (day t <? _); [eauto|].
  destruct (month t <? 12); [eauto|].
  destruct (Z.ltb_spec (Calendar.year t) MAXYEAR); [eauto|lia].
Qed.

Lemma add_two_days_ok (t : datetime) :
  Calendar.year t < MAXYEAR ->
  exists s u, add_days t 1 = Ok s /\ add_days t 2 = Ok u /\ next_day s = Ok u.
Proof.
  intros Hy. destruct (next_day_ok t Hy) as [s Hs].
  assert (exists u, next_day s = Ok u) as [u Hu].
  { destruct (next_day_shape _ _ Hs) as [E|(E & Em & Ed)].
    - apply next_day_ok. lia.
    - unfold next_day. rewrite Ed.
      pose proof (days_in_month_lower (Calendar.year s) (Calendar.month s)).
      destruct (Z.ltb_spec 1 (days_in_month (Calendar.year s) (Calendar.month s)));
        [eauto|lia]. }
  exists s, u. simpl. rewrite Hs. simpl. rewrite Hu. auto.
Qed.

Lemma new_year (y m d : Z) (t : datetime) :
  Calendar.new y m d = Ok t ->
  t = mk_datetime y m d
  /\ 1 <= y <= 9999 /\ 1 <= m <= 12 /\ 1 <= d <= days_in_month y m.
Proof.
  unfold Calendar.new, MINYEAR, MAXYEAR.
  destruct (negb _); [discriminate|].
  destruct (_ && _) eqn:E; [|discriminate].
  intros [= <-]. split; [reflexivity|].
  repeat (apply andb_true_iff in E; destruct E as [E ?]). lia.
Qed.

Lemma parse_row_date (y : Z) (row : Raw.t) (t : datetime) (main : Out.t) :
  parse_row y row = Some (t, main) ->
  Calendar.year t = y /\ Out.Weekday main = Raw.Weekday row
  /\ Out.Date main = strftime t.
Proof.
  unfold parse_row.
  destruct (split "/" (Raw.Date row)) as [|p0 [|p1 [|p2 ps]]];
    try discriminate.
  destruct (int_of_string p0) as [d|]; [|discriminate].
  destruct (int_of_string p1) as [m|]; [|discriminate].
  destruct (Calendar.new y m d) as [fd|] eqn:Hnew; [|discriminate].
  destruct (float_of_string _); [|discriminate].
  destruct (float_of_string _); [|discriminate].
  destruct (float_of_string _); [|discriminate].
  intros [= <- <-]. apply new_year in Hnew as [-> _]. simpl. auto.
Qed.

(** Below year 9999 a Friday row is always followed by both weekend
    rows. *)
Lemma weekend_friday (t : datetime) (main : Out.t) :
  Calendar.year t < MAXYEAR ->
  is_friday (Out.Weekday main) = true ->
  exists sat sun,
    add_days t 1 = Ok sat /\ add_days t 2 = Ok sun
    /\ weekend t main
       = [Out.mk (strftime sat) "Saturday"
            (Out.Min main) (Out.Max main) (Out.Rate main);
          Out.mk (strftime sun) "Sunday"
            (Out.Min main) (Out.Max main) (Out.Rate main)].
Proof.
  intros Hy Hf. destruct (add_two_days_ok t Hy) as (s & u & H1 & H2 & _).
  exists s, u. unfold weekend. rewrite Hf, H1, H2. auto.
Qed.

Lemma weekend_other (t : datetime) (main : Out.t) :
  is_friday (Out.Weekday main) = false -> weekend t main = [].
Proof. intros Hf. unfold weekend. now rewrite Hf. Qed.

(** ** Date arithmetic agrees with day counting *)

Lemma year_length (y : Z) :
  days_before_year (y + 1)
  = days_before_year y + (if is_leap y then 366 else 365).
Proof.
  unfold days_before_year, is_leap.
  replace (y + 1 - 1) with y by lia.
  destruct (Z.eqb_spec (y mod 4) 0), (Z.eqb_spec (y mod 100) 0),
    (Z.eqb_spec (y mod 400) 0); simpl;
    Z.div_mod_to_equations; lia.
Qed.

Lemma days_before_month_succ (y m : Z) :
  1 <= m ->
  days_before_month y (m + 1) = days_before_month y m + days_in_month y m.
Proof.
  intros Hm. unfold days_before_month.
  replace (Z.to_nat (m + 1 - 1)) with (S (Z.to_nat (m - 1))) by lia.
  cbn [days_before_month_aux]. f_equal. f_equal. lia.
Qed.

Lemma days_before_december (y : Z) :
  days_before_month y 12 = if is_leap y then 335 else 334.
Proof.
  unfold days_before_month.
  change (Z.to_nat (12 - 1)) with 11%nat.
  cbn -[is_leap Z.add]. destruct (is_leap y); reflexivity.
Qed.

Lemma next_day_ordinal (t s : datetime) :
  valid_date t -> next_day t = Ok s ->
  toordinal s = toordinal t + 1 /\ valid_date s.
Proof.
  intros [Hm Hd]. unfold next_day.
  destruct t as [y m d]; simpl in *.
  destruct (Z.ltb_spec d (days_in_month y m)).
  { intros [= <-]. unfold toordinal, valid_date; simpl. lia. }
  assert (d = days_in_month y m) as -> by lia.
  destruct (Z.ltb_spec m 12).
  { intros [= <-]. unfold toordinal, valid_date; simpl.
    pose proof (days_in_month_lower y (m + 1)).
    rewrite days_before_month_succ by lia. lia. }
  assert (m = 12) as -> by lia.
  destruct (Z.ltb_spec y MAXYEAR); [|discriminate].
  intros [= <-]. unfold toordinal, valid_date; simpl.
  rewrite year_length, days_before_december.
  change (days_before_month (y + 1) 1) with 0.
  change (days_in_month y 12) with 31.
  change (days_in_month (y + 1) 1) with 31.
  destruct (is_leap y); lia.
Qed.

Lemma add_days_ordinal (n : nat) :
  forall t s : datetime,
    valid_date t -> add_days t n = Ok s ->
    toordinal s = toordinal t + Z.of_nat n.
Proof.
  induction n as [|n IH]; intros t s Hv; simpl.
  - intros [= <-]. lia.
  - destruct (next_day t) as [t'|] eqn:Ht; simpl; [|discriminate].
    intros Hs. destruct (next_day_ordinal _ _ Hv Ht) as [Ho Hv'].
    rewrite (IH _ _ Hv' Hs). lia.
Qed.

Lemma parse_row_valid (y : Z) (row : Raw.t) (t : datetime) (main : Out.t) :
  parse_row y row = Some (t, main) -> valid_date t.
Proof.
  unfold parse_row.
  destruct (split "/" (Raw.Date row)) as [|p0 [|p1 [|p2 ps]]];
    try discriminate.
  destruct (int_of_string p0) as [d|]; [|discriminate].
  destruct (int_of_string p1) as [m|]; [|discriminate].
  destruct (Calendar.new y m d) as [fd|] eqn:Hnew; [|discriminate].
  destruct (float_of_string _); [|discriminate].
  destruct (float_of_string _); [|discriminate].
  destruct (float_of_string _); [|discriminate].
  intros [= <- <-]. apply new_year in Hnew as [-> ?].
  unfold valid_date; simpl. lia.
Qed.

Lemma process_split (y : Z) (pre : list Raw.t) (row : Raw.t)
      (post : list Raw.t) :
  formatted_data (process_and_format_data y (pre ++ row :: post))
  = formatted_data (process_and_format_data y pre)
    ++ emitted y row
    ++ formatted_data (process_and_format_data y post).
Proof. rewrite !process_data. apply flat_map_split. Qed.

Lemma process_expand (y : Z) (rows : list Raw.t) :
  formatted_data (process_and_format_data y rows)
  = flat_map (fun p => snd p :: weekend (fst p) (snd p)) (parsed y rows).
Proof.
  rewrite process_data. unfold parsed.
  induction rows as [|row rows IH]; simpl; [reflexivity|].
  rewrite flat_map_app, <- IH, emitted_parse.
  destruct (parse_row y row) as [[t main]|]; simpl;
    [now rewrite app_nil_r|reflexivity].
Qed.

(** ** Properties of the pipeline *)

(** C1 (as amended).  Below year 9999, the output has one entry per parsed
    source row plus two for each parsed row labelled Friday:
    [N + 2 * F] entries. *)
Theorem expansion_length (y : Z) (rows : list Raw.t) :
  y < MAXYEAR ->
  length (formatted_data (process_and_format_data y rows))
  = (length (parsed y rows) + 2 * fridays (parsed y rows))%nat.
Proof.
  intros Hy. rewrite process_expand. unfold fridays.
  assert (forall p, In p (parsed y rows) -> Calendar.year (fst p) < MAXYEAR)
    as Hall.
  { intros [t main] Hin. unfold parsed in Hin.
    apply in_flat_map in Hin as (row & _ & Hin).
    destruct (parse_row y row) as [q|] eqn:Hp; [|destruct Hin].
    destruct Hin as [->|[]]. apply parse_row_date in Hp as [Ht _].
    simpl. lia. }
  induction (parsed y rows) as [|[t main] ps IH]; [reflexivity|].
  simpl. rewrite length_app, IH by (intros; apply Hall; now right).
  destruct (is_friday (Out.Weekday main)) eqn:Hf.
  - destruct (weekend_friday t main) as (sat & sun & _ & _ & ->);
      [apply (Hall (t, main)); now left|exact Hf|].
    simpl. lia.
  - rewrite weekend_other by exact Hf. simpl. lia.
Qed.

Lemma expansion_length_witness :
  2025 < MAXYEAR
  /\ length (formatted_data
               (process_and_format_data 2025
                  [Sample.friday_row; Sample.monday_row]))
     = (length (parsed 2025 [Sample.friday_row; Sample.monday_row])
        + 2 * fridays (parsed 2025 [Sample.friday_row; Sample.monday_row]))%nat.
Proof.
  split; [reflexivity|].
  apply (expansion_length 2025 [Sample.friday_row; Sample.monday_row]).
  reflexivity.
Defined.

(** C1 as stated fails: the single Friday row of the end-to-end example
    gives 3 entries, not [1 + 3 * 1]. *)
Lemma expansion_length_not_three_per_friday :
  length (formatted_data (process_and_format_data 2025 [Sample.friday_row]))
  <> (length (parsed 2025 [Sample.friday_row])
      + 3 * fridays (parsed 2025 [Sample.friday_row]))%nat.
Proof. vm_compute. discriminate. Qed.

(** The comparison [weekday.lower() == 'friday'] accepts exactly the
    spellings of "friday" in upper and lower case letters. *)
Lemma lower_char_letter (c : ascii) :
  (Ascii.eqb (lower_char c) "f" = Ascii.eqb c "f" || Ascii.eqb c "F")
  /\ (Ascii.eqb (lower_char c) "r" = Ascii.eqb c "r" || Ascii.eqb c "R")
  /\ (Ascii.eqb (lower_char c) "i" = Ascii.eqb c "i" || Ascii.eqb c "I")
  /\ (Ascii.eqb (lower_char c) "d" = Ascii.eqb c "d" || Ascii.eqb c "D")
  /\ (Ascii.eqb (lower_char c) "a" = Ascii.eqb c "a" || Ascii.eqb c "A")
  /\ (Ascii.eqb (lower_char c) "y" = Ascii.eqb c "y" || Ascii.eqb c "Y").
Proof.
  destruct c as [[] [] [] [] [] [] [] []]; vm_compute; auto 7.
Qed.

Lemma is_friday_spelling (w : string) :
  is_friday w
  = match w with
    | String c1 (String c2 (String c3 (String c4 (String c5
        (String c6 EmptyString))))) =>
        (Ascii.eqb c1 "f" || Ascii.eqb c1 "F")
        && (Ascii.eqb c2 "r" || Ascii.eqb c2 "R")
        && (Ascii.eqb c3 "i" || Ascii.eqb c3 "I")
        && (Ascii.eqb c4 "d" || Ascii.eqb c4 "D")
        && (Ascii.eqb c5 "a" || Ascii.eqb c5 "A")
        && (Ascii.eqb c6 "y" || Ascii.eqb c6 "Y")
    | _ => false
    end.
Proof.
  unfold is_friday.
  destruct w as [|c1 [|c2 [|c3 [|c4 [|c5 [|c6 [|c7 w]]]]]]];
    cbn [lower String.eqb]; try reflexivity.
  6: { destruct (lower_char_letter c1) as (-> & _).
       destruct (lower_char_letter c2) as (_ & -> & _).
       destruct (lower_char_letter c3) as (_ & _ & -> & _).
       destruct (lower_char_letter c4) as (_ & _ & _ & -> & _).
       destruct (lower_char_letter c5) as (_ & _ & _ & _ & -> & _).
       destruct (lower_char_letter c6) as (_ & _ & _ & _ & _ & ->).
       destruct (Ascii.eqb c1 "f" || Ascii.eqb c1 "F"); [|reflexivity].
       destruct (Ascii.eqb c2 "r" || Ascii.eqb c2 "R"); [|reflexivity].
       destruct (Ascii.eqb c3 "i" || Ascii.eqb c3 "I"); [|reflexivity].
       destruct (Ascii.eqb c4 "d" || Ascii.eqb c4 "D"); [|reflexivity].
       destruct (Ascii.eqb c5 "a" || Ascii.eqb c5 "A"); [|reflexivity].
       destruct (Ascii.eqb c6 "y" || Ascii.eqb c6 "Y"); reflexivity. }
  all: destruct (Ascii.eqb (lower_char c1) "f"); [|reflexivity].
  all: try reflexivity.
  all: destruct (Ascii.eqb (lower_char c2) "r"); [|reflexivity].
  all: try reflexivity.
  all: destruct (Ascii.eqb (lower_char c3) "i"); [|reflexivity].
  all: try reflexivity.
  all: destruct (Ascii.eqb (lower_char c4) "d"); [|reflexivity].
  all: try reflexivity.
  all: destruct (Ascii.eqb (lower_char c5) "a"); [|reflexivity].
  all: try reflexivity.
  all: destruct (Ascii.eqb (lower_char c6) "y"); reflexivity.
Qed.

(** C3.  Below year 9999, the record of a parsed row whose label is
    "Friday" in any letter case is immediately followed by a record dated
    one day later and labelled "Saturday" and a record dated two days later
    and labelled "Sunday", both with the Friday's min, max and rate; a
    parsed row with any other label is followed directly by the records of
    the next source rows. *)
Theorem friday_weekend_rows (y : Z) (pre : list Raw.t) (row : Raw.t)
        (post : list Raw.t) (t : datetime) (main : Out.t) :
  y < MAXYEAR ->
  parse_row y row = Some (t, main) ->
  let out := formatted_data (process_and_format_data y (pre ++ row :: post)) in
  let before := formatted_data (process_and_format_data y pre) in
  let after := formatted_data (process_and_format_data y post) in
  (is_friday (Raw.Weekday row) = true ->
   exists sat sun,
     add_days t 1 = Ok sat /\ add_days t 2 = Ok sun
     /\ toordinal sat = toordinal t + 1 /\ toordinal sun = toordinal t + 2
     /\ out = before
              ++ main
              :: Out.mk (strftime sat) "Saturday"
                   (Out.Min main) (Out.Max main) (Out.Rate main)
              :: Out.mk (strftime sun) "Sunday"
                   (Out.Min main) (Out.Max main) (Out.Rate main)
              :: after)
  /\ (is_friday (Raw.Weekday row) = false -> out = before ++ main :: after).
Proof.
  intros Hy Hp out before after. subst out before after.
  rewrite process_split, emitted_parse, Hp.
  pose proof (parse_row_date _ _ _ _ Hp) as (Ht & Hw & _).
  pose proof (parse_row_valid _ _ _ _ Hp) as Hv.
  rewrite <- Hw. split; intros Hf.
  - destruct (weekend_friday t main) as (sat & sun & H1 & H2 & ->);
      [lia|exact Hf|].
    exists sat, sun. repeat split; auto.
    + now rewrite (add_days_ordinal 1 t sat Hv H1).
    + now rewrite (add_days_ordinal 2 t sun Hv H2).
  - rewrite weekend_other by exact Hf. reflexivity.
Qed.

Lemma friday_weekend_rows_witness :
  exists t main,
    2025 < MAXYEAR
    /\ parse_row 2025 Sample.friday_row = Some (t, main)
    /\ formatted_data
         (process_and_format_data 2025
            ([Sample.monday_row] ++ Sample.friday_row :: [Sample.monday_row]))
       = formatted_data (process_and_format_data 2025 [Sample.monday_row])
         ++ main
         :: Out.mk "26/07/2025" "Saturday"
              (Out.Min main) (Out.Max main) (Out.Rate main)
         :: Out.mk "27/07/2025" "Sunday"
              (Out.Min main) (Out.Max main) (Out.Rate main)
         :: formatted_data (process_and_format_data 2025 [Sample.monday_row]).
Proof.
  eexists. eexists.
  split; [reflexivity|].
  split; [vm_compute; reflexivity|].
  destruct (friday_weekend_rows 2025 [Sample.monday_row] Sample.friday_row
              [Sample.monday_row] _ _ eq_refl eq_refl) as [Hfri _].
  destruct (Hfri eq_refl) as (sat & sun & H1 & H2 & _ & _ & Hout).
  vm_compute in H1. vm_compute in H2.
  injection H1 as <-. injection H2 as <-. exact Hout.
Defined.

(** C5.  The output is the list of parsed source rows, in source order,
    each record followed at once by its weekend records (two of them,
    Saturday then Sunday, after a Friday below year 9999; none after any
    other label).  In particular the records of two source rows keep their
    relative order whatever their dates. *)
Theorem expansion_preserves_order (y : Z) (rows : list Raw.t) :
  y < MAXYEAR ->
  formatted_data (process_and_format_data y rows)
  = flat_map (fun p => snd p :: weekend (fst p) (snd p)) (parsed y rows)
  /\ (forall a r1 b r2 c t1 m1 t2 m2,
         rows = a ++ r1 :: b ++ r2 :: c ->
         parse_row y r1 = Some (t1, m1) ->
         parse_row y r2 = Some (t2, m2) ->
         formatted_data (process_and_format_data y rows)
         = formatted_data (process_and_format_data y a)
           ++ m1 :: weekend t1 m1
           ++ formatted_data (process_and_format_data y b)
           ++ m2 :: weekend t2 m2
           ++ formatted_data (process_and_format_data y c))
  /\ (forall t main,
         In (t, main) (parsed y rows) ->
         if is_friday (Out.Weekday main)
         then exists sat sun,
             weekend t main = [sat; sun]
             /\ Out.Weekday sat = "Saturday" /\ Out.Weekday sun = "Sunday"
         else weekend t main = []).
Proof.
  intros Hy. split; [apply process_expand|]. split.
  - intros a r1 b r2 c t1 m1 t2 m2 -> H1 H2.
    rewrite process_split, process_split, !emitted_parse, H1, H2.
    reflexivity.
  - intros t main Hin. unfold parsed in Hin.
    apply in_flat_map in Hin as (row & _ & Hin).
    destruct (parse_row y row) as [q|] eqn:Hp; [|destruct Hin].
    destruct Hin as [->|[]]. apply parse_row_date in Hp as (Ht & _).
    destruct (is_friday (Out.Weekday main)) eqn:Hf.
    + destruct (weekend_friday t main) as (sat & sun & _ & _ & ->);
        [lia|exact Hf|].
      eexists. eexists. split; [reflexivity|]. split; reflexivity.
    + now apply weekend_other.
Qed.

Lemma expansion_preserves_order_witness :
  2025 < MAXYEAR
  /\ formatted_data
       (process_and_format_data 2025 [Sample.december_31_row; Sample.friday_row])
     = flat_map (fun p => snd p :: weekend (fst p) (snd p))
         (parsed 2025 [Sample.december_31_row; Sample.friday_row]).
Proof.
  split; [reflexivity|].
  apply (expansion_preserves_order 2025
           [Sample.december_31_row; Sample.friday_row]).
  reflexivity.
Defined.

(** Two Fridays given out of date order stay where the source put them:
    the output runs 31/12, 01/01, 02/01, 25/07, 26/07, 27/07. *)
Example out_of_order_fridays :
  map Out.Date
    (formatted_data
       (process_and_format_data 2025
          [Sample.december_31_row; Sample.friday_row]))
  = ["31/12/2025"; "01/01/2026"; "02/01/2026";
     "25/07/2025"; "26/07/2025"; "27/07/2025"].
Proof. reflexivity. Qed.

(** C6.  A row whose date does not split into two parts, or has a part
    that is not an integer, or names no day of the calendar, or whose Min,
    Max or Rate is not a number once the commas are removed, puts nothing
    on the list, and the rows after it are processed as if it were not
    there. *)
Theorem rejected_row_skipped (y : Z) (pre : list Raw.t) (row : Raw.t)
        (post : list Raw.t) :
  rejected y row ->
  emitted y row = []
  /\ formatted_data (process_and_format_data y (pre ++ row :: post))
     = formatted_data (process_and_format_data y pre)
       ++ formatted_data (process_and_format_data y post).
Proof.
  intros Hr. apply rejected_parse in Hr.
  assert (emitted y row = []) as He by now rewrite emitted_parse, Hr.
  split; [exact He|]. now rewrite process_split, He.
Qed.

Lemma rejected_row_skipped_witness :
  rejected 2025 Sample.not_numeric_row
  /\ formatted_data
       (process_and_format_data 2025
          ([Sample.friday_row] ++ Sample.not_numeric_row :: [Sample.monday_row]))
     = formatted_data (process_and_format_data 2025 [Sample.friday_row])
       ++ formatted_data (process_and_format_data 2025 [Sample.monday_row]).
Proof.
  assert (rejected 2025 Sample.not_numeric_row) as Hr.
  { unfold rejected.
    change (split "/" (Raw.Date Sample.not_numeric_row)) with ["30"; "07"].
    cbv iota. right; right; right; left. vm_compute. exact I. }
  split; [exact Hr|].
  apply (rejected_row_skipped 2025 [Sample.friday_row] Sample.not_numeric_row
           [Sample.monday_row] Hr).
Defined.

(** C10.  Below year 9999, one iteration of the loop either leaves the
    list as it was (the row was rejected), or appends the row's one record
    (any label but Friday), or appends the row's record and both weekend
    records (Friday); nothing in between. *)
Theorem row_atomic (y : Z) (st : state) (i : nat) (row : Raw.t) :
  y < MAXYEAR ->
  let st' := step y st i row in
  (rejected y row /\ formatted_data st' = formatted_data st)
  \/ (exists t main,
         parse_row y row = Some (t, main)
         /\ is_friday (Raw.Weekday row) = false
         /\ formatted_data st' = formatted_data st ++ [main])
  \/ (exists t main sat sun,
         parse_row y row = Some (t, main)
         /\ is_friday (Raw.Weekday row) = true
         /\ Out.Weekday sat = "Saturday" /\ Out.Weekday sun = "Sunday"
         /\ formatted_data st' = formatted_data st ++ [main; sat; sun]).
Proof.
  intros Hy st'. subst st'. rewrite step_data, emitted_parse.
  destruct (parse_row y row) as [[t main]|] eqn:Hp.
  - right. pose proof (parse_row_date _ _ _ _ Hp) as (Ht & Hw & _).
    destruct (is_friday (Raw.Weekday row)) eqn:Hf.
    + right.
      destruct (weekend_friday t main) as (sat & sun & _ & _ & ->);
        [lia|now rewrite Hw|].
      exists t, main,
        (Out.mk (strftime sat) "Saturday"
           (Out.Min main) (Out.Max main) (Out.Rate main)),
        (Out.mk (strftime sun) "Sunday"
           (Out.Min main) (Out.Max main) (Out.Rate main)).
      repeat split; reflexivity.
    + left. rewrite weekend_other by now rewrite Hw.
      exists t, main. auto.
  - left. split; [now apply rejected_parse|now rewrite app_nil_r].
Qed.

Lemma row_atomic_witness :
  2025 < MAXYEAR
  /\ length (formatted_data
               (step 2025 (mk_state [] []) 0 Sample.friday_row)) = 3%nat.
Proof.
  split; [reflexivity|].
  destruct (row_atomic 2025 (mk_state [] []) 0 Sample.friday_row eq_refl)
    as [[_ H]|[(t & main & _ & Hf & _)|(t & main & sat & sun & _ & _ & _ & _ & H)]].
  - rewrite H. discriminate H.
  - discriminate Hf.
  - rewrite H. reflexivity.
Defined.

(** At the very end of the calendar the date arithmetic itself raises, after
    the Friday's record is already on the list. *)
Remark friday_on_last_day_of_9999 :
  map Out.Date
    (formatted_data (process_and_format_data 9999 [Sample.december_31_row]))
  = ["31/12/9999"].
Proof. reflexivity. Qed.

(** C4 (as amended).  Every record of the output is either the record of a
    source row, with that row's own label and values, or one of the two
    records inserted after a Friday record: the first, labelled Saturday,
    right after it, or the second, labelled Sunday, two places after it; an
    inserted record has the min, max and rate of that Friday record. *)
Theorem weekend_values_from_friday (y : Z) (rows : list Raw.t) (i : nat)
        (rec : Out.t) :
  let out := formatted_data (process_and_format_data y rows) in
  nth_error out i = Some rec ->
  (exists row t, In row rows /\ parse_row y row = Some (t, rec))
  \/ (exists k fri,
         ((k = 1%nat /\ Out.Weekday rec = "Saturday")
          \/ (k = 2%nat /\ Out.Weekday rec = "Sunday"))
         /\ (k <= i)%nat
         /\ nth_error out (i - k) = Some fri
         /\ is_friday (Out.Weekday fri) = true
         /\ Out.Min rec = Out.Min fri
         /\ Out.Max rec = Out.Max fri
         /\ Out.Rate rec = Out.Rate fri).
Proof.
  intros out Hi. subst out. rewrite process_data in *.
  destruct (nth_error_flat_map_block _ _ _ _ Hi)
    as (pre & row & post & k & -> & -> & Hk).
  rewrite flat_map_split.
  rewrite emitted_parse in *.
  destruct (parse_row y row) as [[t main]|] eqn:Hp;
    [|destruct k; discriminate].
  destruct k as [|k].
  { left. injection Hk as <-. exists row, t.
    split; [apply in_elt|exact Hp]. }
  right. cbn [nth_error] in Hk. unfold weekend in *.
  destruct (is_friday (Out.Weekday main)) eqn:Hf;
    [|destruct k; discriminate].
  destruct (add_days t 1) as [sat|]; [|destruct k; discriminate].
  set (A := flat_map (emitted y) pre) in *.
  destruct k as [|k].
  { injection Hk as <-. exists 1%nat, main. simpl.
    split; [left; auto|]. split; [lia|].
    replace (length A + 1 - 1)%nat with (length A + 0)%nat by lia.
    rewrite nth_error_app2 by lia.
    replace (length A + 0 - length A)%nat with 0%nat by lia.
    simpl. auto. }
  cbn [nth_error] in Hk.
  destruct (add_days t 2) as [sun|]; [|destruct k; discriminate].
  destruct k as [|k]; [|destruct k; discriminate].
  injection Hk as <-. exists 2%nat, main. simpl.
  split; [right; auto|]. split; [lia|].
  replace (length A + 2 - 2)%nat with (length A + 0)%nat by lia.
  rewrite nth_error_app2 by lia.
  replace (length A + 0 - length A)%nat with 0%nat by lia.
  simpl. auto.
Qed.

Lemma weekend_values_from_friday_witness :
  let out :=
    formatted_data
      (process_and_format_data 2025 [Sample.friday_row; Sample.saturday_row])
  in
  exists rec,
    nth_error out 2 = Some rec
    /\ ((exists row t,
            In row [Sample.friday_row; Sample.saturday_row]
            /\ parse_row 2025 row = Some (t, rec))
        \/ (exists k fri,
               ((k = 1%nat /\ Out.Weekday rec = "Saturday")
                \/ (k = 2%nat /\ Out.Weekday rec = "Sunday"))
               /\ (k <= 2)%nat
               /\ nth_error out (2 - k) = Some fri
               /\ is_friday (Out.Weekday fri) = true
               /\ Out.Min rec = Out.Min fri
               /\ Out.Max rec = Out.Max fri
               /\ Out.Rate rec = Out.Rate fri)).
Proof.
  eexists. split; [reflexivity|].
  apply (weekend_values_from_friday 2025
           [Sample.friday_row; Sample.saturday_row] 2 _ eq_refl).
Defined.

(** C4 as stated fails: a source row that is itself labelled Saturday
    comes out labelled Saturday with its own values, and here the output
    holds no Friday record at all. *)
Lemma saturday_without_friday :
  let out :=
    formatted_data (process_and_format_data 2025 [Sample.saturday_row]) in
  (exists rec, In rec out /\ Out.Weekday rec = "Saturday")
  /\ (forall fri, In fri out -> is_friday (Out.Weekday fri) = false).
Proof.
  split.
  - eexists. split; [left; reflexivity|reflexivity].
  - intros fri [<-|[]]. reflexivity.
Qed.

(** ** Formatting a date and reading it back *)

Lemma split_no_sep (sep : ascii) (a : string) :
  all_chars (fun c => negb (Ascii.eqb c sep)) a = true ->
  split sep a = [a].
Proof.
  induction a as [|c a IH]; simpl; [reflexivity|].
  intros H. apply andb_true_iff in H as [Hc Ha].
  apply negb_true_iff in Hc. rewrite Hc, (IH Ha). reflexivity.
Qed.

Lemma split_app_sep (sep : ascii) (a b : string) :
  all_chars (fun c => negb (Ascii.eqb c sep)) a = true ->
  split sep (a ++ String sep b)%string = a :: split sep b.
Proof.
  induction a as [|c a IH]; simpl.
  - intros _. now rewrite Ascii.eqb_refl.
  - intros H. apply andb_true_iff in H as [Hc Ha].
    apply negb_true_iff in Hc. rewrite Hc, (IH Ha). reflexivity.
Qed.

Lemma in_range (lo hi n : Z) : lo <= n <= hi -> In n (range lo hi).
Proof.
  intros H. unfold range. apply in_map_iff.
  exists (Z.to_nat (n - lo)). split; [lia|]. apply in_seq. lia.
Qed.

Lemma pad2_reads_back (n : Z) :
  1 <= n <= 31 ->
  reads_back (pad2 n) n = true /\ String.length (pad2 n) = 2%nat.
Proof.
  intros H.
  assert (forallb (fun k => reads_back (pad2 k) k
                            && (String.length (pad2 k) =? 2)%nat)
            (range 1 31) = true) as Hall by (vm_compute; reflexivity).
  rewrite forallb_forall in Hall.
  specialize (Hall n (in_range 1 31 n ltac:(lia))).
  apply andb_true_iff in Hall as [H1 H2].
  apply Nat.eqb_eq in H2. auto.
Qed.

Lemma year_reads_back (y : Z) :
  1 <= y <= 9999 ->
  reads_back (decimal y) y = true
  /\ (1000 <= y -> String.length (decimal y) = 4%nat).
Proof.
  intros H.
  assert (forallb (fun k => reads_back (decimal k) k
                            && ((k <? 1000)
                                || (String.length (decimal k) =? 4)%nat))
            (range 1 9999) = true) as Hall by (vm_compute; reflexivity).
  rewrite forallb_forall in Hall.
  specialize (Hall y (in_range 1 9999 y ltac:(lia))).
  apply andb_true_iff in Hall as [H1 H2]. split; [exact H1|].
  intros Hy. apply orb_true_iff in H2 as [H2|H2]; [lia|].
  now apply Nat.eqb_eq.
Qed.

Lemma reads_back_int (field : string) (n : Z) :
  reads_back field n = true ->
  all_chars (fun c => negb (Ascii.eqb c "/")) field = true
  /\ int_of_string field = Ok n.
Proof.
  unfold reads_back. intros H. apply andb_true_iff in H as [H1 H2].
  split; [exact H1|].
  destruct (int_of_string field) as [v|]; [|discriminate].
  apply Z.eqb_eq in H2. now subst.
Qed.

Lemma days_in_month_upper (y m : Z) : days_in_month y m <= 31.
Proof.
  unfold days_in_month.
  destruct (m =? 2); [destruct (is_leap y); lia|].
  destruct (_ || _); lia.
Qed.

Lemma formatted_date_reads_back (y : Z) (row : Raw.t) (t : datetime)
      (main : Out.t) :
  parse_row y row = Some (t, main) ->
  exists p0 p1 dd mm yy,
    split "/" (Raw.Date row) = [p0; p1]
    /\ int_of_string p0 = Ok (Calendar.day t)
    /\ int_of_string p1 = Ok (Calendar.month t)
    /\ split "/" (Out.Date main) = [dd; mm; yy]
    /\ String.length dd = 2%nat /\ String.length mm = 2%nat
    /\ (1000 <= y -> String.length yy = 4%nat)
    /\ int_of_string dd = Ok (Calendar.day t)
    /\ int_of_string mm = Ok (Calendar.month t)
    /\ int_of_string yy = Ok y.
Proof.
  unfold parse_row.
  destruct (split "/" (Raw.Date row)) as [|p0 [|p1 [|p2 ps]]];
    try discriminate.
  destruct (int_of_string p0) as [d|] eqn:Hp0; [|discriminate].
  destruct (int_of_string p1) as [m|] eqn:Hp1; [|discriminate].
  destruct (Calendar.new y m d) as [fd|] eqn:Hnew; [|discriminate].
  destruct (float_of_string _); [|discriminate].
  destruct (float_of_string _); [|discriminate].
  destruct (float_of_string _); [|discriminate].
  intros [= <- <-]. apply new_year in Hnew as (-> & Hy & Hm & Hd).
  pose proof (days_in_month_upper y m) as Hup.
  destruct (pad2_reads_back d ltac:(lia)) as [Rd Ld].
  destruct (pad2_reads_back m ltac:(lia)) as [Rm Lm].
  destruct (year_reads_back y Hy) as [Ry Ly].
  apply reads_back_int in Rd as [Sd Id].
  apply reads_back_int in Rm as [Sm Im].
  apply reads_back_int in Ry as [Sy Iy].
  exists p0, p1, (pad2 d), (pad2 m), (decimal y).
  cbn [Calendar.day Calendar.month].
  split; [reflexivity|]. split; [exact Hp0|]. split; [exact Hp1|]. split.
  - unfold strftime. cbn [Out.Date Calendar.day Calendar.month Calendar.year].
    change (pad2 d ++ "/" ++ pad2 m ++ "/" ++ decimal y)%string
      with (pad2 d ++ String "/" (pad2 m ++ String "/" (decimal y)))%string.
    rewrite (split_app_sep "/" _ _ Sd), (split_app_sep "/" _ _ Sm),
      (split_no_sep "/" _ Sy).
    reflexivity.
  - repeat split; auto.
Qed.

(** C7.  For every row that passes all conversions, wherever it stands in
    the input, [process_and_format_data] puts on its list, right after the
    records of the rows before it, a record with the row's weekday label
    whose date splits back on "/" into three fields: two characters that
    read as the day the row gave, two that read as the month the row
    gave, and the current year (four characters from year 1000 on). *)
Theorem date_round_trip (y : Z) (pre : list Raw.t) (row : Raw.t)
        (post : list Raw.t) :
  ~ rejected y row ->
  exists p0 p1 day month rec rest,
    split "/" (Raw.Date row) = [p0; p1]
    /\ int_of_string p0 = Ok day /\ int_of_string p1 = Ok month
    /\ formatted_data (process_and_format_data y (pre ++ row :: post))
       = formatted_data (process_and_format_data y pre) ++ rec :: rest
    /\ Out.Weekday rec = Raw.Weekday row
    /\ exists dd mm yy,
        split "/" (Out.Date rec) = [dd; mm; yy]
        /\ String.length dd = 2%nat /\ String.length mm = 2%nat
        /\ (1000 <= y -> String.length yy = 4%nat)
        /\ int_of_string dd = Ok day
        /\ int_of_string mm = Ok month
        /\ int_of_string yy = Ok y.
Proof.
  intros Hacc.
  destruct (parse_row y row) as [[t main]|] eqn:Hp;
    [|exfalso; apply Hacc, rejected_parse, Hp].
  destruct (formatted_date_reads_back _ _ _ _ Hp)
    as (p0 & p1 & dd & mm & yy & Hs & H0 & H1 & Hd & R).
  pose proof (parse_row_date _ _ _ _ Hp) as (_ & Hw & _).
  exists p0, p1, (Calendar.day t), (Calendar.month t), main,
    (weekend t main ++ formatted_data (process_and_format_data y post)).
  split; [exact Hs|]. split; [exact H0|]. split; [exact H1|]. split.
  - rewrite process_split, emitted_parse, Hp. reflexivity.
  - split; [exact Hw|]. exists dd, mm, yy. split; [exact Hd|exact R].
Qed.

Lemma date_round_trip_witness :
  ~ rejected 2025 Sample.friday_row
  /\ exists p0 p1 day month rec rest,
      split "/" (Raw.Date Sample.friday_row) = [p0; p1]
      /\ int_of_string p0 = Ok day /\ int_of_string p1 = Ok month
      /\ formatted_data
           (process_and_format_data 2025
              ([Sample.monday_row] ++ Sample.friday_row :: []))
         = formatted_data (process_and_format_data 2025 [Sample.monday_row])
           ++ rec :: rest
      /\ Out.Weekday rec = Raw.Weekday Sample.friday_row
      /\ exists dd mm yy,
          split "/" (Out.Date rec) = [dd; mm; yy]
          /\ String.length dd = 2%nat /\ String.length mm = 2%nat
          /\ (1000 <= 2025 -> String.length yy = 4%nat)
          /\ int_of_string dd = Ok day
          /\ int_of_string mm = Ok month
          /\ int_of_string yy = Ok 2025.
Proof.
  assert (~ rejected 2025 Sample.friday_row) as Hacc.
  { intros H. apply rejected_parse in H. vm_compute in H. discriminate H. }
  split; [exact Hacc|].
  apply (date_round_trip 2025 [Sample.monday_row] Sample.friday_row [] Hacc).
Defined.

(** The date written for the row of the end-to-end example, after another
    row. *)
Example friday_after_monday_dates :
  map Out.Date
    (formatted_data
       (process_and_format_data 2025 [Sample.monday_row; Sample.friday_row]))
  = ["28/07/2025"; "25/07/2025"; "26/07/2025"; "27/07/2025"].
Proof. reflexivity. Qed.

(** ** Signs of the parsed quantities *)

Lemma occurs_lstrip (p : ascii -> bool) (x : ascii) (s : string) :
  occurs x (lstrip_by p s) -> occurs x s.
Proof.
  induction s as [|c s IH]; simpl; [auto|].
  destruct (p c); simpl; auto.
Qed.

Lemma occurs_rstrip (p : ascii -> bool) (x : ascii) (s : string) :
  occurs x (rstrip_by p s) -> occurs x s.
Proof.
  induction s as [|c s IH]; simpl; [auto|].
  destruct (rstrip_by p s) as [|c' r'].
  - destruct (p c); simpl; tauto.
  - simpl in *. tauto.
Qed.

Lemma occurs_remove_char (x c : ascii) (s : string) :
  occurs x (remove_char c s) -> occurs x s.
Proof.
  induction s as [|a s IH]; simpl; [auto|].
  destruct (Ascii.eqb a c); simpl; tauto.
Qed.

Lemma sign_minus (s body : string) :
  sign s = (true, body) -> occurs "-" s.
Proof.
  destruct s as [|c r]; simpl; [discriminate|].
  destruct (Ascii.eqb_spec c "-"); [left; assumption|].
  destruct (Ascii.eqb c "+"); discriminate.
Qed.

(** [float] yields a negative value only from a text with a minus sign. *)
Lemma float_sign (s : string) (x : pyfloat) :
  float_of_string s = Ok x -> ~ occurs "-" s -> x = Fnan \/ nonneg x = true.
Proof.
  unfold float_of_string.
  destruct (sign (strip_by numspace s)) as [neg body] eqn:Hs.
  intros Hx Hno.
  assert (neg = false) as ->.
  { destruct neg; [|reflexivity]. exfalso. apply Hno.
    apply sign_minus in Hs. unfold strip_by in Hs.
    eapply occurs_lstrip, occurs_rstrip, Hs. }
  destruct (String.eqb (lower body) "nan"); [injection Hx as <-; now left|].
  destruct (_ || _); [injection Hx as <-; now right|].
  destruct (floatnumber body) as [[m e]|]; [|discriminate].
  injection Hx as <-. now right.
Qed.

Lemma parse_row_values (y : Z) (row : Raw.t) (t : datetime) (main : Out.t) :
  parse_row y row = Some (t, main) ->
  float_of_string (remove_char "," (Raw.Min row)) = Ok (Out.Min main)
  /\ float_of_string (remove_char "," (Raw.Max row)) = Ok (Out.Max main)
  /\ float_of_string (remove_char "," (Raw.Rate row)) = Ok (Out.Rate main).
Proof.
  unfold parse_row.
  destruct (split "/" (Raw.Date row)) as [|p0 [|p1 [|p2 ps]]];
    try discriminate.
  destruct (int_of_string p0) as [d|]; [|discriminate].
  destruct (int_of_string p1) as [m|]; [|discriminate].
  destruct (Calendar.new y m d) as [fd|]; [|discriminate].
  destruct (float_of_string _); [|discriminate].
  destruct (float_of_string _); [|discriminate].
  destruct (float_of_string _); [|discriminate].
  intros [= <- <-]. auto.
Qed.

(** C8 (as amended).  For every row the parser accepts, min, max and rate
    are what [float] makes of the text without its commas, and each of them
    whose text holds no minus sign is either NaN or at least zero.  The
    parser itself checks no sign. *)
Theorem values_without_minus_nonneg (y : Z) (row : Raw.t) (t : datetime)
        (main : Out.t) :
  parse_row y row = Some (t, main) ->
  (~ occurs "-" (Raw.Min row) ->
   Out.Min main = Fnan \/ nonneg (Out.Min main) = true)
  /\ (~ occurs "-" (Raw.Max row) ->
      Out.Max main = Fnan \/ nonneg (Out.Max main) = true)
  /\ (~ occurs "-" (Raw.Rate row) ->
      Out.Rate main = Fnan \/ nonneg (Out.Rate main) = true).
Proof.
  intros Hp. destruct (parse_row_values _ _ _ _ Hp) as (H1 & H2 & H3).
  repeat split; intros Hno;
    (eapply float_sign; [eassumption|]);
    intros Ho; apply Hno; eapply occurs_remove_char, Ho.
Qed.

Lemma values_without_minus_nonneg_witness :
  exists t main,
    parse_row 2025 Sample.friday_row = Some (t, main)
    /\ ~ occurs "-" (Raw.Min Sample.friday_row)
    /\ nonneg (Out.Min main) = true.
Proof.
  eexists. eexists. split; [vm_compute; reflexivity|].
  assert (~ occurs "-" (Raw.Min Sample.friday_row)) as Hno
      by (vm_compute; intuition discriminate).
  split; [exact Hno|].
  destruct (values_without_minus_nonneg 2025 Sample.friday_row _ _ eq_refl)
    as (H & _ & _).
  destruct (H Hno) as [Hn|Hn]; [discriminate Hn|exact Hn].
Defined.

(** C8 as stated fails: the row with Min "-5" is accepted and its min is
    the negative number -5 (exactly representable, so the float is -5.0). *)
Lemma negative_min_accepted :
  exists t main,
    parse_row 2025 Sample.negative_row = Some (t, main)
    /\ Out.Min main = Fdec true 5 0
    /\ nonneg (Out.Min main) = false
    /\ In main
         (formatted_data
            (process_and_format_data 2025 [Sample.negative_row])).
Proof.
  eexists. eexists. split; [vm_compute; reflexivity|].
  repeat split. left. reflexivity.
Qed.

(** ** Blank rows of the table *)

Lemma extract_step_data (st : Scrape.state) (i : nat) (cells : list string) :
  Scrape.data (Scrape.step st i cells)
  = Scrape.data st
    ++ Scrape.data (Scrape.step (Scrape.mk_state [] []) 0 cells).
Proof.
  unfold Scrape.step.
  destruct cells as [|c0 [|c1 [|c2 [|c3 [|c4 rest]]]]];
    try (now rewrite app_nil_r).
  destruct (Scrape.any_value _); simpl; [reflexivity|now rewrite app_nil_r].
Qed.

Lemma extract_loop_data (rows : list (list string)) :
  forall (st : Scrape.state) (i : nat),
    Scrape.data (Scrape.loop st i rows)
    = Scrape.data st
      ++ flat_map
           (fun cells =>
              Scrape.data (Scrape.step (Scrape.mk_state [] []) 0 cells))
           rows.
Proof.
  induction rows as [|cells rows IH]; intros st i; simpl.
  - now rewrite app_nil_r.
  - rewrite IH, extract_step_data, app_assoc. reflexivity.
Qed.

Lemma extract_rows_split (pre : list (list string)) (cells : list string)
      (post : list (list string)) :
  Scrape.data (Scrape.extract_rows (pre ++ cells :: post))
  = Scrape.data (Scrape.extract_rows pre)
    ++ Scrape.data (Scrape.step (Scrape.mk_state [] []) 0 cells)
    ++ Scrape.data (Scrape.extract_rows post).
Proof.
  unfold Scrape.extract_rows. cbn [Scrape.data].
  rewrite !extract_loop_data. cbn [Scrape.data app].
  rewrite flat_map_split. reflexivity.
Qed.

Lemma any_value_false (r : Raw.t) :
  Scrape.any_value r = false
  <-> Raw.Date r = "" /\ Raw.Weekday r = "" /\ Raw.Min r = ""
      /\ Raw.Max r = "" /\ Raw.Rate r = "".
Proof.
  unfold Scrape.any_value.
  rewrite !orb_false_iff, !negb_false_iff, !String.eqb_eq. tauto.
Qed.

(** C9.  A table row whose five fields are all empty once stripped leaves
    the extracted list and the console untouched, and is not counted in the
    number of rows reported; a row with some field left after stripping is
    appended to the list, in its place. *)
Theorem blank_row_dropped (st : Scrape.state) (i : nat)
        (pre post : list (list string)) (c0 c1 c2 c3 c4 : string)
        (more : list string) :
  let cells := c0 :: c1 :: c2 :: c3 :: c4 :: more in
  let row := Raw.mk (strip c0) (strip c1) (strip c2) (strip c3) (strip c4) in
  let all_blank :=
    strip c0 = "" /\ strip c1 = "" /\ strip c2 = "" /\ strip c3 = ""
    /\ strip c4 = "" in
  (all_blank ->
   Scrape.step st i cells = st
   /\ Scrape.data (Scrape.extract_rows (pre ++ cells :: post))
      = Scrape.data (Scrape.extract_rows pre)
        ++ Scrape.data (Scrape.extract_rows post))
  /\ (~ all_blank ->
      Scrape.data (Scrape.step st i cells) = Scrape.data st ++ [row]
      /\ Scrape.data (Scrape.extract_rows (pre ++ cells :: post))
         = Scrape.data (Scrape.extract_rows pre)
           ++ row :: Scrape.data (Scrape.extract_rows post))
  /\ last (Scrape.console (Scrape.extract_rows (pre ++ cells :: post)))
       MsgProcessing
     = MsgExtracted
         (length (Scrape.data (Scrape.extract_rows (pre ++ cells :: post)))).
Proof.
  intros cells row all_blank.
  pose proof (any_value_false row) as Hany. simpl in Hany.
  fold all_blank in Hany.
  split; [|split].
  - intros Hb. apply Hany in Hb.
    assert (forall s k, Scrape.step s k cells = s) as Hstep.
    { intros s k. unfold Scrape.step, cells. fold row. now rewrite Hb. }
    split; [apply Hstep|].
    rewrite extract_rows_split, Hstep. reflexivity.
  - intros Hn.
    assert (Scrape.any_value row = true) as Ht.
    { destruct (Scrape.any_value row); [reflexivity|].
      exfalso. apply Hn, Hany. reflexivity. }
    assert (forall s, Scrape.data (Scrape.step s i cells)
                      = Scrape.data s ++ [row]) as Hstep.
    { intros s. unfold Scrape.step, cells. fold row. now rewrite Ht. }
    split; [apply Hstep|].
    rewrite extract_rows_split.
    unfold Scrape.step, cells. fold row. rewrite Ht. reflexivity.
  - unfold Scrape.extract_rows. cbn [Scrape.console Scrape.data].
    apply last_last.
Qed.

Lemma blank_row_dropped_witness :
  (strip " " = "" /\ strip "" = "" /\ strip "" = "" /\ strip "" = ""
   /\ strip "  " = "")
  /\ Scrape.data
       (Scrape.extract_rows
          ([["25/07"; "Friday"; "4,050"; "4,100"; "4,075"]]
             ++ [" "; ""; ""; ""; "  "]
             :: [["28/07"; "Monday"; "4,060.5"; "4,110"; "4,085"]]))
     = Scrape.data
         (Scrape.extract_rows
            [["25/07"; "Friday"; "4,050"; "4,100"; "4,075"]])
       ++ Scrape.data
            (Scrape.extract_rows
               [["28/07"; "Monday"; "4,060.5"; "4,110"; "4,085"]]).
Proof.
  assert (strip " " = "" /\ strip "" = "" /\ strip "" = "" /\ strip "" = ""
          /\ strip "  " = "") as Hb by (repeat split; reflexivity).
  split; [exact Hb|].
  destruct (blank_row_dropped (Scrape.mk_state [] []) 0
              [["25/07"; "Friday"; "4,050"; "4,100"; "4,075"]]
              [["28/07"; "Monday"; "4,060.5"; "4,110"; "4,085"]]
              " " "" "" "" "  " []) as [H _].
  exact (proj2 (H Hb)).
Defined.

(** ** The exporter's writes *)

Lemma length_append (a b : string) :
  String.length (a ++ b)%string = (String.length a + String.length b)%nat.
Proof. induction a as [|c a IH]; simpl; [reflexivity|now rewrite IH]. Qed.

Lemma fallback_name_distinct (dir : string) :
  Exporter.join dir "forecast_usd.csv" <> Exporter.fallback_filename.
Proof.
  unfold Exporter.join, Exporter.fallback_filename.
  cbn [Exporter.starts_with_slash Ascii.eqb Bool.eqb].
  destruct (_ || _); intros H;
    pose proof (f_equal String.length H) as L;
    rewrite length_append in L; cbn [String.length String.append] in L;
    do 10 (destruct dir as [|? dir];
           [cbn in H; try discriminate H; cbn in L; lia|]);
    cbn in L; lia.
Qed.

Lemma not_attempted_in_directory_log (t : Exporter.target) (p : string)
      (dirlog : list Exporter.attempt) :
  Forall (fun a => Exporter.what a = Exporter.Directory) dirlog ->
  t <> Exporter.Directory ->
  forall ok, ~ In (Exporter.mk_attempt t p ok) dirlog.
Proof.
  intros Hall Ht ok Hin. rewrite Forall_forall in Hall.
  apply Hall in Hin. simpl in Hin. contradiction.
Qed.

(** C2 (as amended).  With data to save, after the directory step the
    three writes run in order inside one guarded block: spreadsheet,
    delimited text, snapshot.  The first that fails ends the block, the
    writes after it are not attempted, and one fallback delimited-text file
    is attempted under the name forecast_usd_fallback.csv, which differs
    from the primary delimited-text name.  So when the spreadsheet write
    fails, neither forecast_usd.csv nor the snapshot is attempted; only the
    fallback is. *)
Theorem writes_stop_at_first_failure (E : Exporter.env) (data : list Out.t)
        (output_path : string) :
  data <> [] ->
  exists dirlog dir,
    let xl := Exporter.join dir "forecast_usd.xlsx" in
    let csv := Exporter.join dir "forecast_usd.csv" in
    let js :=
      Exporter.join dir
        ("forecast_usd_" ++ Exporter.timestamp E ++ ".json")%string in
    let sheet := Exporter.Spreadsheet (Exporter.styles_ok E) in
    let fb :=
      Exporter.mk_attempt Exporter.Delimited Exporter.fallback_filename
        (Exporter.csv_ok E Exporter.fallback_filename) in
    let log := fst (Exporter.save_data E data output_path) in
    Forall (fun a => Exporter.what a = Exporter.Directory) dirlog
    /\ csv <> Exporter.fallback_filename
    /\ snd (Exporter.save_data E data output_path) = Some xl
    /\ log
       = dirlog
         ++ (if Exporter.excel_ok E xl then
               if Exporter.csv_ok E csv then
                 if Exporter.json_ok E js then
                   [Exporter.mk_attempt sheet xl true;
                    Exporter.mk_attempt Exporter.Delimited csv true;
                    Exporter.mk_attempt Exporter.Snapshot js true]
                 else
                   [Exporter.mk_attempt sheet xl true;
                    Exporter.mk_attempt Exporter.Delimited csv true;
                    Exporter.mk_attempt Exporter.Snapshot js false; fb]
               else
                 [Exporter.mk_attempt sheet xl true;
                  Exporter.mk_attempt Exporter.Delimited csv false; fb]
             else [Exporter.mk_attempt sheet xl false; fb])
    /\ (Exporter.excel_ok E xl = false ->
        ~ Exporter.attempted Exporter.Delimited csv log
        /\ ~ Exporter.attempted Exporter.Snapshot js log
        /\ Exporter.attempted Exporter.Delimited Exporter.fallback_filename
             log).
Proof.
  intros Hdata. destruct data as [|rec data]; [contradiction|].
  set (dl := if Exporter.path_exists E output_path then []
             else [Exporter.mk_attempt Exporter.Directory output_path
                     (Exporter.makedirs_ok E output_path)]).
  set (dir := if Exporter.path_exists E output_path then output_path
              else if Exporter.makedirs_ok E output_path then output_path
                   else ".").
  exists dl, dir. intros xl csv js sheet fb log.
  assert (Forall (fun a => Exporter.what a = Exporter.Directory) dl) as Hdl.
  { unfold dl. destruct (Exporter.path_exists E output_path); repeat constructor. }
  assert (csv <> Exporter.fallback_filename) as Hne
      by apply fallback_name_distinct.
  assert (Exporter.save_data E (rec :: data) output_path
          = (dl ++ (if Exporter.excel_ok E xl then
                      if Exporter.csv_ok E csv then
                        if Exporter.json_ok E js then
                          [Exporter.mk_attempt sheet xl true;
                           Exporter.mk_attempt Exporter.Delimited csv true;
                           Exporter.mk_attempt Exporter.Snapshot js true]
                        else
                          [Exporter.mk_attempt sheet xl true;
                           Exporter.mk_attempt Exporter.Delimited csv true;
                           Exporter.mk_attempt Exporter.Snapshot js false; fb]
                      else
                        [Exporter.mk_attempt sheet xl true;
                         Exporter.mk_attempt Exporter.Delimited csv false; fb]
                    else [Exporter.mk_attempt sheet xl false; fb]),
             Some xl)) as Hsave.
  { unfold Exporter.save_data, Exporter.try_writes, Exporter.bind,
      Exporter.call.
    subst xl csv js sheet fb dl dir.
    destruct (Exporter.path_exists E output_path);
      [|destruct (Exporter.makedirs_ok E output_path)];
      cbn iota beta zeta;
      repeat match goal with
             | |- context [Exporter.excel_ok E ?p] =>
                 destruct (Exporter.excel_ok E p)
             | |- context [Exporter.csv_ok E (Exporter.join ?d ?f)] =>
                 destruct (Exporter.csv_ok E (Exporter.join d f))
             | |- context [Exporter.json_ok E ?p] =>
                 destruct (Exporter.json_ok E p)
             end;
      cbn [fst app]; rewrite <- ?app_assoc; reflexivity. }
  subst log. rewrite Hsave. cbn [fst snd].
  split; [exact Hdl|]. split; [exact Hne|]. split; [reflexivity|].
  split; [reflexivity|].
  intros Hx. rewrite Hx. split; [|split].
  - intros [ok Hin]. apply in_app_or in Hin as [Hin|[Hin|[Hin|[]]]].
    + revert Hin. apply not_attempted_in_directory_log; [exact Hdl|discriminate].
    + discriminate Hin.
    + injection Hin as Hp _. apply Hne. now rewrite Hp.
  - intros [ok Hin]. apply in_app_or in Hin as [Hin|[Hin|[Hin|[]]]].
    + revert Hin. apply not_attempted_in_directory_log; [exact Hdl|discriminate].
    + discriminate Hin.
    + discriminate Hin.
  - exists (Exporter.csv_ok E Exporter.fallback_filename).
    apply in_or_app. right. right. left. reflexivity.
Qed.

Lemma writes_stop_at_first_failure_witness :
  Sample.one_record <> []
  /\ Exporter.attempted Exporter.Delimited Exporter.fallback_filename
       (fst (Exporter.save_data Sample.excel_fails Sample.one_record ".")).
Proof.
  assert (Sample.one_record <> []) as Hd by discriminate.
  split; [exact Hd|].
  destruct (writes_stop_at_first_failure Sample.excel_fails Sample.one_record
              "." Hd) as (dirlog & dir & _ & _ & _ & _ & H).
  exact (proj2 (proj2 (H eq_refl))).
Defined.

(** C2 as stated fails: when only the spreadsheet write fails, neither the
    delimited-text file nor the snapshot is attempted, although both would
    have succeeded. *)
Lemma excel_failure_skips_csv_and_json :
  let log :=
    fst (Exporter.save_data Sample.excel_fails Sample.one_record ".") in
  log
  = [Exporter.mk_attempt (Exporter.Spreadsheet true) "./forecast_usd.xlsx"
       false;
     Exporter.mk_attempt Exporter.Delimited "forecast_usd_fallback.csv" true]
  /\ Exporter.csv_ok Sample.excel_fails "./forecast_usd.csv" = true
  /\ Exporter.json_ok Sample.excel_fails
       "./forecast_usd_20250725_060000.json" = true
  /\ ~ Exporter.attempted Exporter.Delimited "./forecast_usd.csv" log
  /\ ~ Exporter.attempted Exporter.Snapshot
         "./forecast_usd_20250725_060000.json" log.
Proof.
  cbv zeta. split; [reflexivity|]. split; [reflexivity|].
  split; [reflexivity|].
  split; intros [ok [H|[H|[]]]]; discriminate H.
Qed.

(** ** Worked examples *)

(** The end-to-end example: one Friday row becomes three records with the
    same three values. *)
Example end_to_end_friday :
  formatted_data (process_and_format_data 2025 [Sample.friday_row])
  = [Out.mk "25/07/2025" "Friday" (Fdec false 4050 0) (Fdec false 4100 0)
       (Fdec false 4075 0);
     Out.mk "26/07/2025" "Saturday" (Fdec false 4050 0) (Fdec false 4100 0)
       (Fdec false 4075 0);
     Out.mk "27/07/2025" "Sunday" (Fdec false 4050 0) (Fdec false 4100 0)
       (Fdec false 4075 0)].
Proof. reflexivity. Qed.

(** Day 31 of a 30-day month: the row is reported and skipped. *)
Example june_31_is_rejected :
  process_and_format_data 2025 [Sample.june_31_row]
  = mk_state [] [MsgProcessing; MsgRowError 0 Sample.june_31_row ValueError;
                 MsgProcessed 1 0].
Proof. reflexivity. Qed.

(** A date that does not split in two is skipped without a report. *)
Example three_part_date_is_skipped :
  process_and_format_data 2025 [Raw.mk "25/07/2025" "Friday" "1" "2" "3"]
  = mk_state [] [MsgProcessing; MsgProcessed 1 0].
Proof. reflexivity. Qed.

(** When nothing fails, the three files are written and no fallback. *)
Example all_three_written :
  Exporter.save_data Sample.all_succeed Sample.one_record "."
  = ([Exporter.mk_attempt (Exporter.Spreadsheet true) "./forecast_usd.xlsx"
        true;
      Exporter.mk_attempt Exporter.Delimited "./forecast_usd.csv" true;
      Exporter.mk_attempt Exporter.Snapshot
        "./forecast_usd_20250725_060000.json" true],
     Some "./forecast_usd.xlsx").
Proof. reflexivity. Qed.

(** * Further properties of the code *)

(** ** Stripping *)

Lemma rstrip_empty (p : ascii -> bool) (s : string) :
  rstrip_by p s = "" <-> all_chars p s = true.
Proof.
  induction s as [|c s IH]; simpl; [tauto|].
  destruct (rstrip_by p s) as [|c' r'].
  - destruct (p c); simpl.
    + rewrite <- IH. tauto.
    + split; discriminate.
  - split; [discriminate|].
    intros H. apply andb_true_iff in H as [_ H].
    apply IH in H. discriminate.
Qed.

Lemma lstrip_all (p : ascii -> bool) (s : string) :
  all_chars p (lstrip_by p s) = all_chars p s.
Proof.
  induction s as [|c s IH]; simpl; [reflexivity|].
  destruct (p c) eqn:Hc; simpl; [exact IH|now rewrite Hc].
Qed.

Lemma rstrip_idempotent (p : ascii -> bool) (s : string) :
  rstrip_by p (rstrip_by p s) = rstrip_by p s.
Proof.
  induction s as [|c s IH]; simpl; [reflexivity|].
  destruct (rstrip_by p s) as [|c' r'] eqn:Hr.
  - destruct (p c) eqn:Hc; simpl; [reflexivity|now rewrite Hc].
  - cbn [rstrip_by]. cbn [rstrip_by] in IH. rewrite IH. reflexivity.
Qed.

Lemma lstrip_head (p : ascii -> bool) (s : string) :
  match lstrip_by p s with
  | EmptyString => True
  | String c _ => p c = false
  end.
Proof.
  induction s as [|c s IH]; simpl; [exact I|].
  destruct (p c) eqn:Hc; [exact IH|exact Hc].
Qed.

Lemma rstrip_keeps_head (p : ascii -> bool) (c : ascii) (r : string) :
  p c = false -> exists r', rstrip_by p (String c r) = String c r'.
Proof.
  intros Hc. simpl. destruct (rstrip_by p r); [rewrite Hc|]; eauto.
Qed.

Lemma strip_by_idempotent (p : ascii -> bool) (s : string) :
  strip_by p (strip_by p s) = strip_by p s.
Proof.
  unfold strip_by. pose proof (lstrip_head p s) as Hh.
  destruct (lstrip_by p s) as [|c r]; [reflexivity|].
  destruct (rstrip_keeps_head p c r Hh) as [r' Hr].
  assert (lstrip_by p (rstrip_by p (String c r)) = rstrip_by p (String c r))
    as -> by (rewrite Hr; simpl; now rewrite Hh).
  apply rstrip_idempotent.
Qed.

Lemma strip_empty_iff_blank (s : string) :
  strip s = "" <-> all_chars isspace s = true.
Proof.
  unfold strip, strip_by. rewrite rstrip_empty, lstrip_all. reflexivity.
Qed.

Lemma kept_row (cells : list string) (r : Raw.t) :
  In r (Scrape.data (Scrape.step (Scrape.mk_state [] []) 0 cells)) ->
  exists c0 c1 c2 c3 c4 more,
    cells = c0 :: c1 :: c2 :: c3 :: c4 :: more
    /\ r = Raw.mk (strip c0) (strip c1) (strip c2) (strip c3) (strip c4)
    /\ Scrape.any_value r = true.
Proof.
  unfold Scrape.step.
  destruct cells as [|c0 [|c1 [|c2 [|c3 [|c4 more]]]]]; try (intros []).
  destruct (Scrape.any_value _) eqn:Hany; [|intros []].
  intros [<-|[]]. exists c0, c1, c2, c3, c4, more. auto.
Qed.

Lemma extract_rows_data (rows : list (list string)) :
  Scrape.data (Scrape.extract_rows rows)
  = flat_map
      (fun cells =>
         Scrape.data (Scrape.step (Scrape.mk_state [] []) 0 cells))
      rows.
Proof.
  unfold Scrape.extract_rows. cbn [Scrape.data].
  now rewrite extract_loop_data.
Qed.

(** X1.  Every row on the extracted list has some non-empty field, and
    none of its fields begins or ends with whitespace: stripping a field
    again changes nothing. *)
Theorem extracted_rows_stripped (rows : list (list string)) (r : Raw.t) :
  In r (Scrape.data (Scrape.extract_rows rows)) ->
  Scrape.any_value r = true
  /\ strip (Raw.Date r) = Raw.Date r
  /\ strip (Raw.Weekday r) = Raw.Weekday r
  /\ strip (Raw.Min r) = Raw.Min r
  /\ strip (Raw.Max r) = Raw.Max r
  /\ strip (Raw.Rate r) = Raw.Rate r.
Proof.
  rewrite extract_rows_data. intros Hin.
  apply in_flat_map in Hin as (cells & _ & Hin).
  apply kept_row in Hin as (c0 & c1 & c2 & c3 & c4 & more & _ & -> & Hany).
  split; [exact Hany|].
  cbn [Raw.Date Raw.Weekday Raw.Min Raw.Max Raw.Rate].
  unfold strip. rewrite !strip_by_idempotent. auto.
Qed.

Lemma extracted_rows_stripped_witness :
  let rows := [["25/07 "; " Friday"; "4,050"; "4,100"; "4,075"]] in
  let r := Raw.mk "25/07" "Friday" "4,050" "4,100" "4,075" in
  In r (Scrape.data (Scrape.extract_rows rows))
  /\ strip (Raw.Date r) = Raw.Date r.
Proof.
  cbv zeta.
  assert (In (Raw.mk "25/07" "Friday" "4,050" "4,100" "4,075")
            (Scrape.data
               (Scrape.extract_rows
                  [["25/07 "; " Friday"; "4,050"; "4,100"; "4,075"]])))
    as Hin by (left; reflexivity).
  split; [exact Hin|].
  exact (proj1 (proj2 (extracted_rows_stripped _ _ Hin))).
Defined.

(** X2.  A table row with at least five cells is dropped, leaving list and
    console untouched, exactly when each of its first five cells is empty
    or made of whitespace only. *)
Theorem dropped_iff_five_blank_cells (st : Scrape.state) (i : nat)
        (c0 c1 c2 c3 c4 : string) (more : list string) :
  Scrape.step st i (c0 :: c1 :: c2 :: c3 :: c4 :: more) = st
  <-> all_chars isspace c0 = true /\ all_chars isspace c1 = true
      /\ all_chars isspace c2 = true /\ all_chars isspace c3 = true
      /\ all_chars isspace c4 = true.
Proof.
  rewrite <- !strip_empty_iff_blank.
  pose proof (any_value_false
                (Raw.mk (strip c0) (strip c1) (strip c2) (strip c3)
                   (strip c4))) as Hany.
  cbn [Raw.Date Raw.Weekday Raw.Min Raw.Max Raw.Rate] in Hany.
  rewrite <- Hany. unfold Scrape.step.
  destruct (Scrape.any_value _); split; try reflexivity; try discriminate.
  intros H. apply (f_equal Scrape.data) in H. cbn [Scrape.data] in H.
  apply (f_equal (@length Raw.t)) in H. rewrite length_app in H.
  simpl in H. lia.
Qed.

(** X3.  Only rows with at least five cells are looked at, and only their
    first five cells: the extracted list is the one obtained from the table
    with its shorter rows removed and its longer rows cut to five cells. *)
Theorem short_rows_dropped_extra_cells_ignored (rows : list (list string)) :
  Scrape.data (Scrape.extract_rows rows)
  = Scrape.data
      (Scrape.extract_rows
         (map (firstn 5)
            (filter (fun cells => (5 <=? length cells)%nat) rows))).
Proof.
  rewrite !extract_rows_data.
  induction rows as [|cells rows IH]; [reflexivity|].
  cbn [flat_map filter]. rewrite IH.
  destruct cells as [|c0 [|c1 [|c2 [|c3 [|c4 more]]]]]; try reflexivity.
Qed.

(** X4.  The list never holds more rows than the table has, and at most
    five rows are echoed on the console, whatever the size of the
    table. *)
Theorem at_most_five_rows_echoed (rows : list (list string)) :
  let st := Scrape.extract_rows rows in
  (length (Scrape.data st) <= length rows)%nat
  /\ (length (filter (fun m => match m with
                               | MsgRow _ _ => true
                               | _ => false
                               end) (Scrape.console st)) <= 5)%nat.
Proof.
  set (is_row := fun m => match m with MsgRow _ _ => true | _ => false end).
  assert (forall rs st i,
             (length (Scrape.data (Scrape.loop st i rs))
              <= length (Scrape.data st) + length rs)%nat
             /\ (length (filter is_row (Scrape.console (Scrape.loop st i rs)))
                 <= length (filter is_row (Scrape.console st)) + (5 - i))%nat)
    as Hinv.
  { induction rs as [|cells rs IH]; intros st i; cbn [Scrape.loop length];
      [lia|].
    destruct (IH (Scrape.step st i cells) (S i)) as [Hd Hc].
    assert ((length (Scrape.data (Scrape.step st i cells))
             <= S (length (Scrape.data st)))%nat
            /\ (length (filter is_row (Scrape.console (Scrape.step st i cells)))
                + (5 - S i)
                <= length (filter is_row (Scrape.console st)) + (5 - i))%nat)
      as [Hd' Hc'].
    { unfold Scrape.step.
      destruct cells as [|c0 [|c1 [|c2 [|c3 [|c4 more]]]]]; try lia.
      destruct (Scrape.any_value _); [|lia].
      cbn [Scrape.data Scrape.console]. rewrite length_app. simpl length.
      split; [lia|].
      destruct (Nat.ltb_spec i 5); [|lia].
      rewrite filter_app, length_app. unfold is_row at 2.
      cbn [filter length]. lia. }
    lia. }
  intros st. subst st. unfold Scrape.extract_rows.
  cbn [Scrape.data Scrape.console].
  destruct (Hinv rows (Scrape.mk_state [] []) 0%nat) as [Hd Hc].
  split; [exact Hd|].
  rewrite filter_app, length_app. simpl in *. lia.
Qed.

(** ** One iteration of the processing loop, console included *)

Lemma try_body_parsed (y : Z) (row : Raw.t) (st : state) (t : datetime)
      (main : Out.t) :
  parse_row y row = Some (t, main) ->
  try_body y row st
  = let st1 := mk_state (formatted_data st ++ [main]) (console st) in
    if is_friday (Raw.Weekday row) then
      match add_days t 1 with
      | Raise e => (st1, Raise e)
      | Ok sat =>
          let st2 :=
            mk_state
              (formatted_data st1
                 ++ [Out.mk (strftime sat) "Saturday"
                       (Out.Min main) (Out.Max main) (Out.Rate main)])
              (console st) in
          match add_days t 2 with
          | Raise e => (st2, Raise e)
          | Ok sun =>
              (mk_state
                 (formatted_data st2
                    ++ [Out.mk (strftime sun) "Sunday"
                          (Out.Min main) (Out.Max main) (Out.Rate main)])
                 (console st ++ [MsgWeekendAdded (Out.Date main)]),
               Ok tt)
          end
      end
    else (st1, Ok tt).
Proof.
  unfold parse_row. unfold_try.
  destruct (split "/" (Raw.Date row)) as [|p0 [|p1 [|p2 ps]]];
    try discriminate.
  cbn [length Nat.eqb nth].
  destruct (int_of_string p0) as [d|]; [|discriminate].
  destruct (int_of_string p1) as [m|]; [|discriminate].
  destruct (Calendar.new y m d) as [fd|]; [|discriminate].
  destruct (float_of_string (remove_char "," (Raw.Min row))); [|discriminate].
  destruct (float_of_string (remove_char "," (Raw.Max row))); [|discriminate].
  destruct (float_of_string (remove_char "," (Raw.Rate row))); [|discriminate].
  intros [= <- <-]. cbn [Out.Min Out.Max Out.Rate Out.Date].
  destruct (is_friday (Raw.Weekday row)); [|reflexivity].
  cbn zeta.
  destruct (add_days fd 1) as [sat|]; [|reflexivity].
  cbn [formatted_data console].
  destruct (add_days fd 2) as [sun|]; reflexivity.
Qed.

(** X5.  A row whose date does not split into exactly two parts is passed
    over without a trace: the list and the console stay as they were.  A
    row with a two-part date that fails a conversion leaves the list alone
    and puts exactly one error report on the console, carrying the row's
    index. *)
Theorem unsplit_date_silent_other_failures_reported
        (y : Z) (st : state) (i : nat) (row : Raw.t) :
  (length (split "/" (Raw.Date row)) <> 2%nat -> step y st i row = st)
  /\ (length (split "/" (Raw.Date row)) = 2%nat ->
      rejected y row ->
      exists e,
        step y st i row
        = mk_state (formatted_data st) (console st ++ [MsgRowError i row e])).
Proof.
  unfold step, rejected. unfold_try. split.
  - intros Hlen. apply Nat.eqb_neq in Hlen. rewrite Hlen. reflexivity.
  - intros Hlen.
    destruct (split "/" (Raw.Date row)) as [|p0 [|p1 [|p2 ps]]];
      try discriminate.
    cbn [length Nat.eqb nth].
    destruct (int_of_string p0) as [d|e]; [|eauto].
    destruct (int_of_string p1) as [m|e]; [|eauto].
    destruct (Calendar.new y m d) as [fd|e] eqn:Hnew; [|eauto].
    destruct (float_of_string (remove_char "," (Raw.Min row))) as [?|e];
      [|eauto].
    destruct (float_of_string (remove_char "," (Raw.Max row))) as [?|e];
      [|eauto].
    destruct (float_of_string (remove_char "," (Raw.Rate row))) as [?|e];
      [|eauto].
    intros [[]|[[]|[(d' & m' & Hd & Hm & Hr)|[[]|[[]|[]]]]]].
    injection Hd as <-. injection Hm as <-. rewrite Hnew in Hr. destruct Hr.
Qed.

Lemma unsplit_date_silent_other_failures_reported_witness :
  length (split "/" (Raw.Date Sample.june_31_row)) = 2%nat
  /\ rejected 2025 Sample.june_31_row
  /\ exists e,
      step 2025 (mk_state [] []) 7 Sample.june_31_row
      = mk_state [] [MsgRowError 7 Sample.june_31_row e].
Proof.
  assert (rejected 2025 Sample.june_31_row) as Hr.
  { unfold rejected.
    change (split "/" (Raw.Date Sample.june_31_row)) with ["31"; "06"].
    cbv iota. right; right; left. exists 31, 6.
    repeat split; vm_compute; auto. }
  split; [reflexivity|]. split; [exact Hr|].
  exact (proj2 (unsplit_date_silent_other_failures_reported 2025
                  (mk_state [] []) 7 Sample.june_31_row) eq_refl Hr).
Defined.

(** X6.  Below year 9999, an accepted row prints nothing, unless it is a
    Friday row, which prints one notice carrying the Friday's formatted
    date; no error is reported for it. *)
Theorem accepted_row_console (y : Z) (st : state) (i : nat) (row : Raw.t)
        (t : datetime) (main : Out.t) :
  y < MAXYEAR ->
  parse_row y row = Some (t, main) ->
  console (step y st i row)
  = console st
    ++ (if is_friday (Raw.Weekday row)
        then [MsgWeekendAdded (Out.Date main)]
        else []).
Proof.
  intros Hy Hp. unfold step. rewrite (try_body_parsed _ _ _ _ _ Hp).
  cbv zeta. pose proof (parse_row_date _ _ _ _ Hp) as (Ht & _).
  destruct (is_friday (Raw.Weekday row)); [|cbn; now rewrite app_nil_r].
  destruct (add_two_days_ok t ltac:(lia)) as (s & u & -> & -> & _).
  reflexivity.
Qed.

Lemma accepted_row_console_witness :
  2025 < MAXYEAR
  /\ console (step 2025 (mk_state [] []) 0 Sample.friday_row)
     = [MsgWeekendAdded "25/07/2025"].
Proof.
  split; [reflexivity|].
  exact (accepted_row_console 2025 (mk_state [] []) 0 Sample.friday_row
           _ _ eq_refl eq_refl).
Defined.

(** X7.  In year 9999 a Friday row dated 31 December puts its own record on
    the list and then fails in the date arithmetic: no weekend record
    follows, and the row is reported with an overflow error.  Dated 30
    December, it is followed by its Saturday record only. *)
Theorem friday_at_end_of_calendar (st : state) (i : nat) (row : Raw.t)
        (t : datetime) (main : Out.t) :
  parse_row MAXYEAR row = Some (t, main) ->
  is_friday (Raw.Weekday row) = true ->
  Calendar.month t = 12 ->
  (Calendar.day t = 31 ->
   step MAXYEAR st i row
   = mk_state (formatted_data st ++ [main])
       (console st ++ [MsgRowError i row OverflowError]))
  /\ (Calendar.day t = 30 ->
      step MAXYEAR st i row
      = mk_state
          ((formatted_data st ++ [main])
             ++ [Out.mk "31/12/9999" "Saturday"
                   (Out.Min main) (Out.Max main) (Out.Rate main)])
          (console st ++ [MsgRowError i row OverflowError])).
Proof.
  intros Hp Hf Hm. unfold step. rewrite (try_body_parsed _ _ _ _ _ Hp), Hf.
  pose proof (parse_row_date _ _ _ _ Hp) as (Ht & _).
  destruct t as [ty tm td]. simpl in Ht, Hm. subst ty tm.
  split; intros Hd; simpl in Hd; subst td; reflexivity.
Qed.

Lemma friday_at_end_of_calendar_witness :
  exists t main,
    parse_row MAXYEAR Sample.december_31_row = Some (t, main)
    /\ step MAXYEAR (mk_state [] []) 0 Sample.december_31_row
       = mk_state [main]
           [MsgRowError 0 Sample.december_31_row OverflowError].
Proof.
  eexists. eexists. split; [vm_compute; reflexivity|].
  exact (proj1 (friday_at_end_of_calendar (mk_state [] []) 0
                  Sample.december_31_row _ _ eq_refl eq_refl eq_refl)
           eq_refl).
Defined.

(** ** The processed list as a whole *)

Lemma emitted_empty (y : Z) (row : Raw.t) :
  emitted y row = [] <-> rejected y row.
Proof.
  rewrite rejected_parse, emitted_parse.
  destruct (parse_row y row) as [[t main]|]; split; try discriminate; auto.
Qed.

Lemma nothing_emitted_iff (y : Z) (rows : list Raw.t) :
  flat_map (emitted y) rows = [] <-> Forall (rejected y) rows.
Proof.
  rewrite Forall_forall. split.
  - intros H row Hin. apply emitted_empty.
    destruct (emitted y row) as [|rec recs] eqn:He; [reflexivity|].
    assert (In rec (flat_map (emitted y) rows)) as Hrec
        by (apply in_flat_map; exists row; rewrite He; split; [exact Hin|now left]).
    rewrite H in Hrec. destruct Hrec.
  - intros H. destruct (flat_map (emitted y) rows) as [|rec recs] eqn:Hf;
      [reflexivity|].
    assert (In rec (flat_map (emitted y) rows)) as Hrec
        by (rewrite Hf; now left).
    apply in_flat_map in Hrec as (row & Hin & Hrec).
    apply H, emitted_empty in Hin. rewrite Hin in Hrec. destruct Hrec.
Qed.

(** X8.  The function returns the empty list exactly when every row is
    rejected; one accepted row is enough for a non-empty result, in any
    year. *)
Theorem empty_result_iff_all_rejected (y : Z) (rows : list Raw.t) :
  formatted_data (process_and_format_data y rows) = []
  <-> Forall (rejected y) rows.
Proof.
  rewrite process_data.
  induction rows as [|row rows IH]; simpl.
  - split; [constructor|reflexivity].
  - split.
    + intros H. apply app_eq_nil in H as [H1 H2].
      constructor; [now apply emitted_empty|now apply IH].
    + intros H. inversion H as [|? ? Hr Hrs]; subst.
      apply emitted_empty in Hr. rewrite Hr. now apply IH.
Qed.

(** X9.  Rows are processed one by one with nothing carried over: the
    result for two lists of rows put end to end is the two results put end
    to end. *)
Theorem process_concatenation (y : Z) (a b : list Raw.t) :
  formatted_data (process_and_format_data y (a ++ b))
  = formatted_data (process_and_format_data y a)
    ++ formatted_data (process_and_format_data y b).
Proof. rewrite !process_data. apply flat_map_app. Qed.




(** ** The shape of the dates written *)

Lemma add_days_valid (n : nat) :
  forall t s : datetime,
    valid_date t -> add_days t n = Ok s ->
    valid_date s
    /\ Calendar.year t <= Calendar.year s <= Calendar.year t + Z.of_nat n.
Proof.
  induction n as [|n IH]; intros t s Hv; simpl.
  - intros [= <-]. split; [exact Hv|lia].
  - destruct (next_day t) as [t'|] eqn:Ht; simpl; [|discriminate].
    intros Hs. destruct (next_day_ordinal _ _ Hv Ht) as [_ Hv'].
    destruct (IH _ _ Hv' Hs) as [Hvs Hys]. split; [exact Hvs|].
    destruct (next_day_shape _ _ Ht) as [E|(E & _)]; lia.
Qed.

Lemma strftime_shape (t : datetime) :
  valid_date t -> 1000 <= Calendar.year t <= 9999 ->
  exists dd mm yyyy,
    strftime t = (dd ++ "/" ++ mm ++ "/" ++ yyyy)%string
    /\ String.length dd = 2%nat /\ String.length mm = 2%nat
    /\ String.length yyyy = 4%nat
    /\ int_of_string dd = Ok (Calendar.day t)
    /\ int_of_string mm = Ok (Calendar.month t)
    /\ int_of_string yyyy = Ok (Calendar.year t).
Proof.
  intros [Hm Hd] Hy.
  pose proof (days_in_month_upper (Calendar.year t) (Calendar.month t)).
  destruct (pad2_reads_back (Calendar.day t) ltac:(lia)) as [Rd Ld].
  destruct (pad2_reads_back (Calendar.month t) ltac:(lia)) as [Rm Lm].
  destruct (year_reads_back (Calendar.year t) ltac:(lia)) as [Ry Ly].
  apply reads_back_int in Rd as [_ Id].
  apply reads_back_int in Rm as [_ Im].
  apply reads_back_int in Ry as [_ Iy].
  exists (pad2 (Calendar.day t)), (pad2 (Calendar.month t)),
    (decimal (Calendar.year t)).
  repeat split; auto. apply Ly. lia.
Qed.

(** X11.  From year 1000 to year 9998, every date on the returned list is
    written as two digits, a slash, two digits, a slash and four digits,
    and reads back as a day of the calendar, in the current year or, for a
    weekend record after a Friday at the very end of December, the next
    one. *)
Theorem dates_are_dd_mm_yyyy (y : Z) (rows : list Raw.t) (rec : Out.t) :
  1000 <= y < MAXYEAR ->
  In rec (formatted_data (process_and_format_data y rows)) ->
  exists t dd mm yyyy,
    valid_date t /\ y <= Calendar.year t <= y + 1
    /\ Out.Date rec = (dd ++ "/" ++ mm ++ "/" ++ yyyy)%string
    /\ String.length dd = 2%nat /\ String.length mm = 2%nat
    /\ String.length yyyy = 4%nat
    /\ int_of_string dd = Ok (Calendar.day t)
    /\ int_of_string mm = Ok (Calendar.month t)
    /\ int_of_string yyyy = Ok (Calendar.year t).
Proof.
  unfold MAXYEAR. intros Hy. rewrite process_data. intros Hin.
  apply in_flat_map in Hin as (row & _ & Hin).
  rewrite emitted_parse in Hin.
  destruct (parse_row y row) as [[t main]|] eqn:Hp; [|destruct Hin].
  pose proof (parse_row_date _ _ _ _ Hp) as (Ht & _ & Hdate).
  pose proof (parse_row_valid _ _ _ _ Hp) as Hv.
  assert (forall s, valid_date s -> y <= Calendar.year s <= y + 1 ->
                    Out.Date rec = strftime s ->
                    exists t dd mm yyyy,
                      valid_date t /\ y <= Calendar.year t <= y + 1
                      /\ Out.Date rec = (dd ++ "/" ++ mm ++ "/" ++ yyyy)%string
                      /\ String.length dd = 2%nat /\ String.length mm = 2%nat
                      /\ String.length yyyy = 4%nat
                      /\ int_of_string dd = Ok (Calendar.day t)
                      /\ int_of_string mm = Ok (Calendar.month t)
                      /\ int_of_string yyyy = Ok (Calendar.year t)) as Hshape.
  { intros s Hs Hys Hd.
    destruct (strftime_shape s Hs ltac:(lia)) as (dd & mm & yyyy & E & R).
    exists s, dd, mm, yyyy. rewrite Hd, E. auto. }
  destruct Hin as [<-|Hin]; [apply (Hshape t); auto; lia|].
  unfold weekend in Hin.
  destruct (is_friday (Out.Weekday main)); [|destruct Hin].
  destruct (add_days t 1) as [sat|] eqn:H1; [|destruct Hin].
  destruct (add_days_valid 1 _ _ Hv H1) as [Hv1 Hy1].
  destruct Hin as [<-|Hin]; [apply (Hshape sat); auto; simpl in Hy1; lia|].
  destruct (add_days t 2) as [sun|] eqn:H2; [|destruct Hin].
  destruct Hin as [<-|[]].
  destruct (add_days_valid 2 _ _ Hv H2) as [Hv2 Hy2].
  apply (Hshape sun); auto.
  pose proof (add_days_ordinal 1 _ _ Hv H1) as O1.
  pose proof (add_days_ordinal 2 _ _ Hv H2) as O2.
  split; [lia|].
  destruct (Z.le_gt_cases (Calendar.year sun) (y + 1)) as [Hle|Hgt];
    [exact Hle|].
  exfalso. simpl in H1, H2.
  destruct (next_day t) as [t1|] eqn:N1; simpl in H1, H2; [|discriminate].
  injection H1 as <-.
  destruct (next_day t1) as [t2|] eqn:N2; simpl in H2; [|discriminate].
  injection H2 as <-.
  destruct (next_day_shape _ _ N1) as [E1|(E1 & M1 & D1)];
    destruct (next_day_shape _ _ N2) as [E2|(E2 & M2 & D2)]; try lia.
  unfold next_day in N2. rewrite D1, M1 in N2.
  change (1 <? days_in_month (Calendar.year t1) 1) with true in N2.
  injection N2 as <-. simpl in E2. lia.
Qed.

Lemma dates_are_dd_mm_yyyy_witness :
  1000 <= 2025 < MAXYEAR
  /\ exists rec,
      In rec (formatted_data
                (process_and_format_data 2025 [Sample.december_31_row]))
      /\ Out.Weekday rec = "Sunday"
      /\ exists t dd mm yyyy,
          valid_date t /\ 2025 <= Calendar.year t <= 2025 + 1
          /\ Out.Date rec = (dd ++ "/" ++ mm ++ "/" ++ yyyy)%string
          /\ String.length dd = 2%nat /\ String.length mm = 2%nat
          /\ String.length yyyy = 4%nat
          /\ int_of_string dd = Ok (Calendar.day t)
          /\ int_of_string mm = Ok (Calendar.month t)
          /\ int_of_string yyyy = Ok (Calendar.year t).
Proof.
  assert (1000 <= 2025 < MAXYEAR) as Hy by (split; [discriminate|reflexivity]).
  split; [exact Hy|].
  eexists. split; [right; right; left; reflexivity|].
  split; [reflexivity|].
  apply (dates_are_dd_mm_yyyy 2025 [Sample.december_31_row] _ Hy).
  right; right; left; reflexivity.
Defined.

(** ** File names and the directory step of [save_data] *)

Lemma append_assoc (a b c : string) :
  (a ++ (b ++ c))%string = ((a ++ b) ++ c)%string.
Proof. induction a as [|x a IH]; simpl; [reflexivity|now rewrite IH]. Qed.

Lemma append_inv_head (a b c : string) :
  (a ++ b)%string = (a ++ c)%string -> b = c.
Proof.
  induction a as [|x a IH]; simpl; [auto|].
  intros H. injection H as H. auto.
Qed.

Lemma append_same_length_suffix (a : string) :
  forall c b d : string,
    (a ++ b)%string = (c ++ d)%string ->
    String.length b = String.length d ->
    a = c /\ b = d.
Proof.
  induction a as [|x a IH]; intros c b d H L.
  - destruct c as [|y c]; [auto|].
    simpl in H. subst b. simpl in L. rewrite length_append in L. lia.
  - destruct c as [|y c].
    + simpl in H. subst d. simpl in L. rewrite length_append in L. lia.
    + simpl in H. injection H as -> H.
      destruct (IH _ _ _ H L) as [-> ->]. auto.
Qed.

Lemma join_relative (a b : string) :
  Exporter.starts_with_slash b = false ->
  Exporter.join a b = (a ++ b)%string
  \/ Exporter.join a b = ((a ++ "/") ++ b)%string.
Proof.
  intros Hb. unfold Exporter.join. rewrite Hb.
  destruct (_ || _); [now left|right]. apply append_assoc.
Qed.

Lemma join_suffix (a b front back : string) :
  Exporter.starts_with_slash b = false ->
  b = (front ++ back)%string ->
  exists before, Exporter.join a b = (before ++ back)%string.
Proof.
  intros Hb ->. destruct (join_relative a _ Hb) as [->| ->].
  - exists (a ++ front)%string. apply append_assoc.
  - exists ((a ++ "/") ++ front)%string. apply append_assoc.
Qed.

Lemma save_data_log (E : Exporter.env) (rec : Out.t) (data : list Out.t)
      (output_path : string) :
  let dir :=
    if Exporter.path_exists E output_path then output_path
    else if Exporter.makedirs_ok E output_path then output_path else "." in
  let dirlog :=
    if Exporter.path_exists E output_path then []
    else [Exporter.mk_attempt Exporter.Directory output_path
            (Exporter.makedirs_ok E output_path)] in
  let xl := Exporter.join dir "forecast_usd.xlsx" in
  let csv := Exporter.join dir "forecast_usd.csv" in
  let js :=
    Exporter.join dir
      ("forecast_usd_" ++ Exporter.timestamp E ++ ".json")%string in
  let sheet := Exporter.Spreadsheet (Exporter.styles_ok E) in
  let fb :=
    Exporter.mk_attempt Exporter.Delimited Exporter.fallback_filename
      (Exporter.csv_ok E Exporter.fallback_filename) in
  Exporter.save_data E (rec :: data) output_path
  = (dirlog
       ++ (if Exporter.excel_ok E xl then
             if Exporter.csv_ok E csv then
               if Exporter.json_ok E js then
                 [Exporter.mk_attempt sheet xl true;
                  Exporter.mk_attempt Exporter.Delimited csv true;
                  Exporter.mk_attempt Exporter.Snapshot js true]
               else
                 [Exporter.mk_attempt sheet xl true;
                  Exporter.mk_attempt Exporter.Delimited csv true;
                  Exporter.mk_attempt Exporter.Snapshot js false; fb]
             else
               [Exporter.mk_attempt sheet xl true;
                Exporter.mk_attempt Exporter.Delimited csv false; fb]
           else [Exporter.mk_attempt sheet xl false; fb]),
     Some xl).
Proof.
  cbv zeta.
  unfold Exporter.save_data, Exporter.try_writes, Exporter.bind,
    Exporter.call.
  destruct (Exporter.path_exists E output_path);
    [|destruct (Exporter.makedirs_ok E output_path)];
    cbn iota beta zeta;
    repeat match goal with
           | |- context [Exporter.excel_ok E ?p] =>
               destruct (Exporter.excel_ok E p)
           | |- context [Exporter.csv_ok E (Exporter.join ?d ?f)] =>
               destruct (Exporter.csv_ok E (Exporter.join d f))
           | |- context [Exporter.json_ok E ?p] =>
               destruct (Exporter.json_ok E p)
           end;
    cbn [fst app]; rewrite <- ?app_assoc; reflexivity.
Qed.

(** X12.  With no data, [save_data] touches nothing and returns [None].
    With data, it returns the spreadsheet's file name whether or not any
    write succeeded.  The files go to the given directory if it exists or
    can be created, in which case creation is the first call made, and to
    the current directory if creating it fails. *)
Theorem output_directory_fallback (E : Exporter.env) (data : list Out.t)
        (output_path : string) :
  (data = [] -> Exporter.save_data E data output_path = ([], None))
  /\ (data <> [] ->
      let log := fst (Exporter.save_data E data output_path) in
      let returned := snd (Exporter.save_data E data output_path) in
      (Exporter.path_exists E output_path = true ->
       returned = Some (Exporter.join output_path "forecast_usd.xlsx")
       /\ ~ Exporter.attempted Exporter.Directory output_path log)
      /\ (Exporter.path_exists E output_path = false ->
          hd_error log
          = Some (Exporter.mk_attempt Exporter.Directory output_path
                    (Exporter.makedirs_ok E output_path))
          /\ returned
             = Some (Exporter.join
                       (if Exporter.makedirs_ok E output_path
                        then output_path else ".")
                       "forecast_usd.xlsx"))).
Proof.
  split; [intros ->; reflexivity|].
  intros Hd. destruct data as [|rec data]; [contradiction|].
  cbv zeta. rewrite save_data_log. cbn [fst snd]. split; intros Hp; rewrite Hp.
  - split; [reflexivity|]. cbn [app]. intros [ok Hin].
    repeat match type of Hin with
           | context [if ?b then _ else _] => destruct b
           end;
      cbn [In] in Hin;
      repeat (destruct Hin as [Hin|Hin]; [discriminate Hin|]);
      exact Hin.
  - split; reflexivity.
Qed.

Lemma output_directory_fallback_witness :
  Sample.one_record <> []
  /\ snd (Exporter.save_data Sample.excel_fails Sample.one_record "out")
     = Some "out/forecast_usd.xlsx".
Proof.
  assert (Sample.one_record <> []) as Hd by discriminate.
  split; [exact Hd|].
  exact (proj1 (proj1 (proj2 (output_directory_fallback Sample.excel_fails
                                Sample.one_record "out") Hd) eq_refl)).
Defined.

(** X13.  With data, the fallback file is attempted exactly when one of
    the three primary writes fails; its name is fixed, so it lands in the
    current directory whatever output directory was asked for. *)
Theorem fallback_iff_some_write_fails (E : Exporter.env) (data : list Out.t)
        (output_path : string) :
  data <> [] ->
  let dir :=
    if Exporter.path_exists E output_path then output_path
    else if Exporter.makedirs_ok E output_path then output_path else "." in
  let log := fst (Exporter.save_data E data output_path) in
  Exporter.attempted Exporter.Delimited "forecast_usd_fallback.csv" log
  <-> Exporter.excel_ok E (Exporter.join dir "forecast_usd.xlsx")
      && Exporter.csv_ok E (Exporter.join dir "forecast_usd.csv")
      && Exporter.json_ok E
           (Exporter.join dir
              ("forecast_usd_" ++ Exporter.timestamp E ++ ".json")%string)
      = false.
Proof.
  intros Hd. destruct data as [|rec data]; [contradiction|].
  cbv zeta. rewrite save_data_log. cbn [fst].
  set (dir := if Exporter.path_exists E output_path then output_path
              else if Exporter.makedirs_ok E output_path then output_path
                   else ".").
  pose proof (fallback_name_distinct dir) as Hne.
  unfold Exporter.fallback_filename in *.
  assert (forall ok dl,
             dl = [] \/ (exists p b,
                            dl = [Exporter.mk_attempt Exporter.Directory p b]) ->
             ~ In (Exporter.mk_attempt Exporter.Delimited
                     "forecast_usd_fallback.csv" ok) dl) as Hdl.
  { intros ok dl [->|(p & b & ->)] Hin; [destruct Hin|].
    destruct Hin as [Hin|[]]. discriminate Hin. }
  assert ((if Exporter.path_exists E output_path then []
           else [Exporter.mk_attempt Exporter.Directory output_path
                   (Exporter.makedirs_ok E output_path)]) = []
          \/ (exists p b,
                 (if Exporter.path_exists E output_path then []
                  else [Exporter.mk_attempt Exporter.Directory output_path
                          (Exporter.makedirs_ok E output_path)])
                 = [Exporter.mk_attempt Exporter.Directory p b])) as Hshape.
  { destruct (Exporter.path_exists E output_path); [now left|right; eauto]. }
  destruct (Exporter.excel_ok E _), (Exporter.csv_ok E (Exporter.join dir _)),
    (Exporter.json_ok E _); cbn [andb]; split.
  all: try (intros _; reflexivity).
  all: try (intros Hf; discriminate Hf).
  all: try (intros [ok Hin]; exfalso;
            apply in_app_or in Hin as [Hin|Hin];
            [exact (Hdl _ _ Hshape Hin)|];
            cbn [In] in Hin; destruct Hin as [Hin|[Hin|[Hin|[]]]];
            [discriminate Hin
            |injection Hin as Hin _; exact (Hne Hin)
            |discriminate Hin]).
  all: intros _; exists (Exporter.csv_ok E "forecast_usd_fallback.csv");
    apply in_or_app; right; cbn [In]; auto 6.
Qed.

Lemma fallback_iff_some_write_fails_witness :
  Sample.one_record <> []
  /\ Exporter.attempted Exporter.Delimited "forecast_usd_fallback.csv"
       (fst (Exporter.save_data Sample.excel_fails Sample.one_record "out")).
Proof.
  assert (Sample.one_record <> []) as Hd by discriminate.
  split; [exact Hd|].
  apply (fallback_iff_some_write_fails Sample.excel_fails Sample.one_record
           "out" Hd).
  reflexivity.
Defined.

(** X14.  The spreadsheet, the delimited-text file, the snapshot and the
    fallback file always have four different names, for any directory and
    any timestamp: no write of one run lands on the file of another. *)
Theorem output_names_distinct (dir ts : string) :
  let xl := Exporter.join dir "forecast_usd.xlsx" in
  let csv := Exporter.join dir "forecast_usd.csv" in
  let js := Exporter.join dir ("forecast_usd_" ++ ts ++ ".json")%string in
  let fb := Exporter.fallback_filename in
  xl <> csv /\ xl <> js /\ csv <> js /\ xl <> fb /\ csv <> fb /\ js <> fb.
Proof.
  cbv zeta.
  destruct (join_suffix dir "forecast_usd.xlsx" "forecast_usd." "xlsx"
              eq_refl eq_refl) as [q1 ->].
  pose proof (fallback_name_distinct dir) as Hcsv.
  destruct (join_suffix dir "forecast_usd.csv" "forecast_usd" ".csv"
              eq_refl eq_refl) as [q2 E2].
  destruct (join_suffix dir ("forecast_usd_" ++ ts ++ ".json")
              ("forecast_usd_" ++ ts ++ ".") "json" eq_refl) as [q3 ->].
  { cbn [String.append]. do 13 f_equal.
    change ".json" with ("." ++ "json")%string. apply append_assoc. }
  rewrite E2 in *. unfold Exporter.fallback_filename in *.
  change "forecast_usd_fallback.csv"
    with ("forecast_usd_fallback" ++ ".csv")%string.
  repeat split; try exact Hcsv; intros H;
    apply append_same_length_suffix in H; try reflexivity;
    destruct H as [_ H]; discriminate H.
Qed.

(** X15.  In one directory, snapshots taken at different timestamps have
    different file names. *)
Theorem snapshot_name_injective (dir ts1 ts2 : string) :
  Exporter.join dir ("forecast_usd_" ++ ts1 ++ ".json")%string
  = Exporter.join dir ("forecast_usd_" ++ ts2 ++ ".json")%string ->
  ts1 = ts2.
Proof.
  unfold Exporter.join.
  cbn [String.append Exporter.starts_with_slash Ascii.eqb Bool.eqb].
  intros H.
  assert ((ts1 ++ ".json")%string = (ts2 ++ ".json")%string) as Hn.
  { destruct (_ || _); apply append_inv_head in H;
      cbn [String.append] in H; injection H as H; exact H. }
  apply append_same_length_suffix in Hn; [tauto|reflexivity].
Qed.

Lemma snapshot_name_injective_witness :
  Exporter.join "out" ("forecast_usd_" ++ "20250725_060000" ++ ".json")%string
  = Exporter.join "out" ("forecast_usd_" ++ "20250725_060000" ++ ".json")%string
  /\ "20250725_060000" = "20250725_060000".
Proof.
  split; [reflexivity|].
  apply (snapshot_name_injective "out" "20250725_060000" "20250725_060000").
  reflexivity.
Defined.

(** ** [scrape_with_selenium] *)

Ltac unfold_scrape :=
  unfold Selenium.scrape_with_selenium, Selenium.try_body, Selenium.bind,
    Selenium.say, Selenium.say_all, Selenium.call, Selenium.attempt,
    Selenium.ret.

(** X16.  The browser is closed on every path on which it was started, and
    closing it is the last thing reported; when Chrome does not start there
    is nothing to close and the function returns [None]. *)
Theorem browser_closed_iff_started (y : Z) (b : Selenium.browser) :
  let o := Selenium.scrape_with_selenium y b in
  Selenium.quit o = Selenium.chrome b
  /\ (Selenium.chrome b = true ->
      last (Selenium.printed o) Selenium.Starting = Selenium.BrowserClosed)
  /\ (Selenium.chrome b = false ->
      o = Selenium.mk_outcome None
            [Selenium.Starting; Selenium.ScrapeError] false).
Proof.
  cbv zeta. split; [|split].
  - unfold Selenium.scrape_with_selenium.
    destruct (Selenium.try_body y b []) as [out [v|]];
      destruct (Selenium.chrome b); reflexivity.
  - intros Hc. unfold Selenium.scrape_with_selenium. rewrite Hc.
    destruct (Selenium.try_body y b []) as [out [v|]];
      cbn [Selenium.printed]; apply last_last.
  - intros Hc. unfold_scrape. rewrite Hc. reflexivity.
Qed.

Lemma browser_closed_iff_started_witness :
  Selenium.chrome (Selenium.loaded []) = true
  /\ last (Selenium.printed
             (Selenium.scrape_with_selenium 2025 (Selenium.loaded [])))
       Selenium.Starting
     = Selenium.BrowserClosed.
Proof.
  split; [reflexivity|].
  exact (proj1 (proj2 (browser_closed_iff_started 2025 (Selenium.loaded [])))
           eq_refl).
Defined.

Lemma find_target_first (pre : list Selenium.table) (t : Selenium.table)
      (post : list Selenium.table) :
  (forall u, In u pre -> Selenium.qualifies u <> Selenium.Read true) ->
  Selenium.qualifies t = Selenium.Read true ->
  Selenium.find_target (pre ++ t :: post) = Some t.
Proof.
  intros Hpre Ht. induction pre as [|u pre IH]; simpl.
  - now rewrite Ht.
  - assert (Selenium.qualifies u <> Selenium.Read true) as Hu
        by (apply Hpre; now left).
    destruct (Selenium.qualifies u) as [[|]|]; try contradiction;
      apply IH; intros v Hv; apply Hpre; now right.
Qed.

Lemma find_target_none (tables : list Selenium.table) :
  (forall u, In u tables -> Selenium.qualifies u <> Selenium.Read true) ->
  Selenium.find_target tables = None.
Proof.
  induction tables as [|u tables IH]; intros H; simpl; [reflexivity|].
  assert (Selenium.qualifies u <> Selenium.Read true) as Hu
      by (apply H; now left).
  destruct (Selenium.qualifies u) as [[|]|]; try contradiction;
    apply IH; intros v Hv; apply H; now right.
Qed.

Lemma scrape_depends_on_target (y : Z) (tables1 tables2 : list Selenium.table) :
  Selenium.find_target tables1 = Selenium.find_target tables2 ->
  Selenium.scrape_with_selenium y (Selenium.loaded tables1)
  = Selenium.scrape_with_selenium y (Selenium.loaded tables2).
Proof.
  intros H. unfold_scrape. cbn [Selenium.loaded Selenium.chrome Selenium.get
    Selenium.wait Selenium.find_tables app]. now rewrite H.
Qed.

(** X17.  The table used is the first one, in page order, whose class
    contains "tbh" or whose text contains both "Date" and "Weekday"; tables
    before it that fail the test, or cannot be read, and all tables after
    it, make no difference to the result. *)
Theorem first_qualifying_table_wins (y : Z) (pre : list Selenium.table)
        (t : Selenium.table) (post : list Selenium.table) :
  (forall u, In u pre -> Selenium.qualifies u <> Selenium.Read true) ->
  Selenium.qualifies t = Selenium.Read true ->
  Selenium.scrape_with_selenium y (Selenium.loaded (pre ++ t :: post))
  = Selenium.scrape_with_selenium y (Selenium.loaded [t]).
Proof.
  intros Hpre Ht. apply scrape_depends_on_target.
  rewrite (find_target_first pre t post Hpre Ht).
  simpl. now rewrite Ht.
Qed.

Lemma first_qualifying_table_wins_witness :
  let unreadable :=
    Selenium.mk_table Selenium.Fails (Selenium.Read "Date Weekday")
      (Selenium.Read []) in
  let forecast :=
    Selenium.plain_table (Some "tbh") ""
      [["25/07"; "Friday"; "4,050"; "4,100"; "4,075"]] in
  let other := Selenium.plain_table None "Date and Weekday" [] in
  Selenium.qualifies forecast = Selenium.Read true
  /\ Selenium.scrape_with_selenium 2025
       (Selenium.loaded ([unreadable] ++ forecast :: [other]))
     = Selenium.scrape_with_selenium 2025 (Selenium.loaded [forecast]).
Proof.
  cbv zeta. split; [reflexivity|].
  apply first_qualifying_table_wins; [|reflexivity].
  intros u [<-|[]]. discriminate.
Defined.

(** X18.  When no table passes the test, the function reports that the
    table was not found, closes the browser and returns [None]; this is not
    reported as a scraping error. *)
Theorem no_table_no_result (y : Z) (tables : list Selenium.table) :
  (forall u, In u tables -> Selenium.qualifies u <> Selenium.Read true) ->
  Selenium.scrape_with_selenium y (Selenium.loaded tables)
  = Selenium.mk_outcome None
      [Selenium.Starting; Selenium.Navigating; Selenium.Waiting;
       Selenium.Looking; Selenium.NoTable; Selenium.BrowserClosed] true.
Proof.
  intros H. apply find_target_none in H. unfold_scrape.
  cbn [Selenium.loaded Selenium.chrome Selenium.get Selenium.wait
         Selenium.find_tables app]. rewrite H. reflexivity.
Qed.

Lemma no_table_no_result_witness :
  let t := Selenium.plain_table (Some "prices") "Date only" [] in
  (forall u, In u [t] -> Selenium.qualifies u <> Selenium.Read true)
  /\ Selenium.returned
       (Selenium.scrape_with_selenium 2025 (Selenium.loaded [t])) = None.
Proof.
  cbv zeta.
  assert (forall u,
             In u [Selenium.plain_table (Some "prices") "Date only" []] ->
             Selenium.qualifies u <> Selenium.Read true) as H
      by (intros u [<-|[]]; discriminate).
  split; [exact H|].
  now rewrite (no_table_no_result 2025 _ H).
Defined.

Lemma read_rows_fails (trs : list (Selenium.reading (list string))) :
  forall data i out,
    In Selenium.Fails trs ->
    snd (Selenium.read_rows data i trs out) = None.
Proof.
  induction trs as [|tr trs IH]; intros data i out Hin; [destruct Hin|].
  cbn [Selenium.read_rows]. unfold Selenium.bind, Selenium.attempt,
    Selenium.say_all.
  destruct tr as [cells|]; [|reflexivity].
  destruct Hin as [Hin|Hin]; [discriminate Hin|].
  apply IH. exact Hin.
Qed.

(** X19.  Extraction is all or nothing: if any row of the chosen table
    cannot be read, the function returns [None], however many rows were
    read before it, and the browser is still closed. *)
Theorem unreadable_row_discards_all (y : Z) (tables : list Selenium.table)
        (t : Selenium.table)
        (trs : list (Selenium.reading (list string))) :
  Selenium.find_target tables = Some t ->
  Selenium.rows t = Selenium.Read trs ->
  In Selenium.Fails trs ->
  let o := Selenium.scrape_with_selenium y (Selenium.loaded tables) in
  Selenium.returned o = None /\ Selenium.quit o = true.
Proof.
  intros Ht Hr Hin. cbv zeta. unfold_scrape.
  cbn [Selenium.loaded Selenium.chrome Selenium.get Selenium.wait
         Selenium.find_tables app]. rewrite Ht, Hr.
  pose proof (read_rows_fails trs [] 0%nat
                [Selenium.Starting; Selenium.Navigating; Selenium.Waiting;
                 Selenium.Looking; Selenium.FoundTable; Selenium.Extracting]
                Hin) as Hf.
  destruct (Selenium.read_rows _ _ _ _) as [out [d|]]; [discriminate Hf|].
  split; reflexivity.
Qed.

Lemma unreadable_row_discards_all_witness :
  let t :=
    Selenium.mk_table (Selenium.Read (Some "tbh")) (Selenium.Read "")
      (Selenium.Read
         [Selenium.Read ["25/07"; "Friday"; "4,050"; "4,100"; "4,075"];
          Selenium.Fails]) in
  Selenium.find_target [t] = Some t
  /\ Selenium.returned
       (Selenium.scrape_with_selenium 2025 (Selenium.loaded [t])) = None.
Proof.
  cbv zeta. split; [reflexivity|].
  refine (proj1 (unreadable_row_discards_all 2025
                   [Selenium.mk_table (Selenium.Read (Some "tbh"))
                      (Selenium.Read "")
                      (Selenium.Read
                         [Selenium.Read
                            ["25/07"; "Friday"; "4,050"; "4,100"; "4,075"];
                          Selenium.Fails])]
                   _ _ eq_refl eq_refl _)).
  right; left; reflexivity.
Defined.

Lemma scrape_step_split (st : Scrape.state) (i : nat) (cells : list string) :
  Scrape.data (Scrape.step st i cells)
  = Scrape.data (Scrape.step (Scrape.mk_state (Scrape.data st) []) i cells)
  /\ Scrape.console (Scrape.step st i cells)
     = Scrape.console st
       ++ Scrape.console
            (Scrape.step (Scrape.mk_state (Scrape.data st) []) i cells).
Proof.
  unfold Scrape.step.
  destruct cells as [|c0 [|c1 [|c2 [|c3 [|c4 more]]]]];
    cbn [Scrape.data Scrape.console]; rewrite ?app_nil_r; auto.
  destruct (Scrape.any_value _); cbn [Scrape.data Scrape.console];
    [|rewrite app_nil_r; auto].
  destruct (i <? 5)%nat; rewrite ?app_nil_r; auto.
Qed.

Lemma read_rows_loop (trs : list (list string)) :
  forall (st : Scrape.state) (i : nat) (pre : list Selenium.notice),
    Selenium.read_rows (Scrape.data st) i (map Selenium.Read trs)
      (pre ++ map Selenium.Inner (Scrape.console st))
    = (pre ++ map Selenium.Inner (Scrape.console (Scrape.loop st i trs)),
       Some (Scrape.data (Scrape.loop st i trs))).
Proof.
  induction trs as [|cells trs IH]; intros st i pre; [reflexivity|].
  cbn [map Selenium.read_rows Scrape.loop].
  unfold Selenium.bind, Selenium.attempt, Selenium.say_all.
  destruct (scrape_step_split st i cells) as [Hd Hc].
  rewrite <- Hd, <- app_assoc, <- map_app, <- Hc. apply IH.
Qed.

(** X20.  On a page that loads, with a target table whose rows can all be
    read, the function returns what [process_and_format_data] makes of the
    rows extracted from that table, prints the two loops' messages in that
    order between its own, and closes the browser. *)
Theorem scrape_composes_extract_and_process
        (y : Z) (tables : list Selenium.table) (t : Selenium.table)
        (trs : list (list string)) :
  Selenium.find_target tables = Some t ->
  Selenium.rows t = Selenium.Read (map Selenium.Read trs) ->
  let extracted := Scrape.extract_rows trs in
  let processed := process_and_format_data y (Scrape.data extracted) in
  Selenium.scrape_with_selenium y (Selenium.loaded tables)
  = Selenium.mk_outcome (Some (formatted_data processed))
      ([Selenium.Starting; Selenium.Navigating; Selenium.Waiting;
        Selenium.Looking; Selenium.FoundTable; Selenium.Extracting]
         ++ map Selenium.Inner (Scrape.console extracted)
         ++ map Selenium.Inner (console processed)
         ++ [Selenium.BrowserClosed])
      true.
Proof.
  intros Ht Hr. cbv zeta. unfold_scrape.
  cbn [Selenium.loaded Selenium.chrome Selenium.get Selenium.wait
         Selenium.find_tables app]. rewrite Ht, Hr.
  pose proof (read_rows_loop trs (Scrape.mk_state [] []) 0%nat
                [Selenium.Starting; Selenium.Navigating; Selenium.Waiting;
                 Selenium.Looking; Selenium.FoundTable; Selenium.Extracting])
    as Hl.
  cbn [Scrape.data Scrape.console map] in Hl. rewrite app_nil_r in Hl.
  cbn [app] in *. rewrite Hl.
  unfold Scrape.extract_rows. cbn [Scrape.data Scrape.console].
  rewrite map_app. cbn [map app]. rewrite <- !app_assoc. reflexivity.
Qed.

Lemma scrape_composes_extract_and_process_witness :
  let t :=
    Selenium.plain_table (Some "tbh") ""
      [["Date"; "Weekday"]; ["25/07"; "Friday"; "4,050"; "4,100"; "4,075"]] in
  Selenium.find_target [t] = Some t
  /\ Selenium.returned
       (Selenium.scrape_with_selenium 2025 (Selenium.loaded [t]))
     = Some (formatted_data
               (process_and_format_data 2025 [Sample.friday_row])).
Proof.
  cbv zeta. split; [reflexivity|].
  rewrite (scrape_composes_extract_and_process 2025
             [Selenium.plain_table (Some "tbh") ""
                [["Date"; "Weekday"];
                 ["25/07"; "Friday"; "4,050"; "4,100"; "4,075"]]]
             _ [["Date"; "Weekday"];
                ["25/07"; "Friday"; "4,050"; "4,100"; "4,075"]]
             eq_refl eq_refl).
  reflexivity.
Defined.

(** ** The entry point *)

(** X21.  The script exits with status 0 exactly when scraping returned a
    non-empty list, and with status 1 otherwise, in which case it touches
    no file.  What happens to the writes never changes the status: it is 0
    even if every one of them fails. *)
Theorem exit_status (y : Z) (b : Selenium.browser) (E : Exporter.env) :
  (fst (Selenium.main y b E) = 0
   <-> exists r data,
        Selenium.returned (Selenium.scrape_with_selenium y b)
        = Some (r :: data))
  /\ (fst (Selenium.main y b E) <> 0 ->
      Selenium.main y b E = (1, []))
  /\ (forall E', fst (Selenium.main y b E') = fst (Selenium.main y b E)).
Proof.
  unfold Selenium.main.
  destruct (Selenium.returned (Selenium.scrape_with_selenium y b))
    as [[|r data]|]; cbn [fst].
  - split; [|auto]. split; [discriminate|]. intros (r & d & H). discriminate H.
  - split; [|split; [intros H; now contradiction H|auto]].
    split; eauto.
  - split; [|auto]. split; [discriminate|]. intros (r & d & H). discriminate H.
Qed.

Lemma exit_status_witness :
  fst (Selenium.main 2025 (Selenium.loaded []) Sample.all_succeed) <> 0
  /\ Selenium.main 2025 (Selenium.loaded []) Sample.all_succeed = (1, []).
Proof.
  assert (fst (Selenium.main 2025 (Selenium.loaded []) Sample.all_succeed)
          <> 0) as H by discriminate.
  split; [exact H|].
  exact (proj1 (proj2 (exit_status 2025 (Selenium.loaded [])
                         Sample.all_succeed)) H).
Defined.

(** X22.  With a readable target table, the script exits with status 1
    exactly when every extracted row is rejected, no table row being
    extracted at all included; otherwise it exits with status 0 and the
    spreadsheet write to ./forecast_usd.xlsx is its first write, once the
    current directory is there. *)
Theorem exit_status_from_rows (y : Z) (tables : list Selenium.table)
        (t : Selenium.table) (trs : list (list string)) (E : Exporter.env) :
  Selenium.find_target tables = Some t ->
  Selenium.rows t = Selenium.Read (map Selenium.Read trs) ->
  let data := Scrape.data (Scrape.extract_rows trs) in
  (fst (Selenium.main y (Selenium.loaded tables) E) = 1
   <-> Forall (rejected y) data)
  /\ (~ Forall (rejected y) data ->
      Exporter.path_exists E "." = true ->
      fst (Selenium.main y (Selenium.loaded tables) E) = 0
      /\ exists ok,
          hd_error (snd (Selenium.main y (Selenium.loaded tables) E))
          = Some (Exporter.mk_attempt
                    (Exporter.Spreadsheet (Exporter.styles_ok E))
                    "./forecast_usd.xlsx" ok)).
Proof.
  intros Ht Hr. cbv zeta. unfold Selenium.main.
  pose proof (read_rows_loop trs (Scrape.mk_state [] []) 0%nat
                [Selenium.Starting; Selenium.Navigating; Selenium.Waiting;
                 Selenium.Looking; Selenium.FoundTable; Selenium.Extracting])
    as Hl.
  cbn [Scrape.data Scrape.console map] in Hl. rewrite app_nil_r in Hl.
  assert (Selenium.returned
            (Selenium.scrape_with_selenium y (Selenium.loaded tables))
          = Some (formatted_data
                    (process_and_format_data y
                       (Scrape.data (Scrape.extract_rows trs))))) as ->.
  { unfold_scrape.
    cbn [Selenium.loaded Selenium.chrome Selenium.get Selenium.wait
           Selenium.find_tables app]. rewrite Ht, Hr.
    cbn [app] in *. rewrite Hl. reflexivity. }
  rewrite <- nothing_emitted_iff, <- process_data.
  destruct (formatted_data _) as [|r data] eqn:Hf; cbn [fst snd].
  - split; [tauto|]. intros H. now contradiction H.
  - split; [split; discriminate|].
    intros _ Hp. split; [reflexivity|].
    rewrite save_data_log. cbn [fst]. rewrite Hp. cbn [app].
    change (Exporter.join "." "forecast_usd.xlsx") with "./forecast_usd.xlsx".
    destruct (Exporter.excel_ok E _); [|eexists; reflexivity].
    destruct (Exporter.csv_ok E _); [|eexists; reflexivity].
    destruct (Exporter.json_ok E _); eexists; reflexivity.
Qed.

Lemma exit_status_from_rows_witness :
  let t :=
    Selenium.plain_table (Some "tbh") ""
      [["31/06"; "Monday"; "4,050"; "4,100"; "4,075"]] in
  Selenium.find_target [t] = Some t
  /\ Forall (rejected 2025)
       (Scrape.data
          (Scrape.extract_rows
             [["31/06"; "Monday"; "4,050"; "4,100"; "4,075"]]))
  /\ fst (Selenium.main 2025 (Selenium.loaded [t]) Sample.all_succeed) = 1.
Proof.
  cbv zeta.
  assert (Forall (rejected 2025)
            (Scrape.data
               (Scrape.extract_rows
                  [["31/06"; "Monday"; "4,050"; "4,100"; "4,075"]]))) as Hall.
  { change (Scrape.data _) with [Sample.june_31_row].
    constructor; [|constructor]. unfold rejected.
    change (split "/" (Raw.Date Sample.june_31_row)) with ["31"; "06"].
    cbv iota. right; right; left. exists 31, 6.
    repeat split; vm_compute; auto. }
  split; [reflexivity|]. split; [exact Hall|].
  exact (proj2 (proj1 (exit_status_from_rows 2025
                         [Selenium.plain_table (Some "tbh") ""
                            [["31/06"; "Monday"; "4,050"; "4,100"; "4,075"]]]
                         _ [["31/06"; "Monday"; "4,050"; "4,100"; "4,075"]]
                         Sample.all_succeed eq_refl eq_refl)) Hall).
Defined.

(** ** The clock year and the calendar *)

(** X23.  Whether a row dated 29/02 is accepted depends on the clock: with
    numeric Min, Max and Rate it is rejected exactly in the years that are
    not leap years. *)
Theorem leap_day_needs_leap_year (y : Z) (weekday mn mx rt : string) :
  1 <= y <= 9999 ->
  ~ raises (float_of_string (remove_char "," mn)) ->
  ~ raises (float_of_string (remove_char "," mx)) ->
  ~ raises (float_of_string (remove_char "," rt)) ->
  rejected y (Raw.mk "29/02" weekday mn mx rt) <-> is_leap y = false.
Proof.
  intros Hy H1 H2 H3. unfold rejected. cbn [Raw.Date Raw.Min Raw.Max Raw.Rate].
  change (split "/" "29/02") with ["29"; "02"]. cbv iota.
  change (int_of_string "29") with (Ok 29).
  change (int_of_string "02") with (Ok 2).
  assert (raises (Calendar.new y 2 29) <-> is_leap y = false) as Hnew.
  { unfold Calendar.new, c_int, MINYEAR, MAXYEAR, days_in_month.
    change (2 =? 2) with true. cbv iota.
    destruct (Z.leb_spec (- 2 ^ 31) y); [|lia].
    destruct (Z.ltb_spec y (2 ^ 31)); [|lia].
    destruct (Z.leb_spec 1 y); [|lia].
    destruct (Z.leb_spec y 9999); [|lia].
    destruct (is_leap y); simpl; split; auto; try discriminate.
    intros []. }
  split.
  - intros [[]|[[]|[(d & m & Hd & Hm & Hr)|[H|[H|H]]]]]; try contradiction.
    injection Hd as <-. injection Hm as <-. now apply Hnew.
  - intros Hl. right; right; left. exists 29, 2. repeat split.
    now apply Hnew.
Qed.

Lemma leap_day_needs_leap_year_witness :
  1 <= 2025 <= 9999
  /\ rejected 2025 (Raw.mk "29/02" "Friday" "4,050" "4,100" "4,075").
Proof.
  assert (1 <= 2025 <= 9999) as Hy by (split; discriminate).
  split; [exact Hy|].
  apply (leap_day_needs_leap_year 2025 "Friday" "4,050" "4,100" "4,075" Hy);
    try (vm_compute; exact (fun H => H)).
  reflexivity.
Defined.
